(** * MidTerm marketing tools: clip generation and clip chaining

    A shallow embedding of [docs/marketing/create_clip.py] and
    [docs/marketing/chain_clips.py].

    The scripts talk to the outside world all the time (the generative
    service, the file system, [ffmpeg]/[ffprobe], the clock, the random
    generator, standard output).  The outside world is an abstract state
    [W]; every external call is a field of a service record that takes the
    world and gives the next world and the answer.  Python control flow
    (return, raise, [sys.exit]) is an [outcome].

    A Python float is given by the rational [Q] it stands for.  The
    backoff delay of [retry_on_429] is computed as binary64 does, with the
    rounding of each operation and the [OverflowError] of an integer too
    large for a float.  The durations that [chain_clips.py] measures, adds
    up and prints are small decimal values; their sums are taken
    exactly. *)

From Stdlib Require Import ZArith QArith Qminmax List String Ascii Bool Lia.
From Stdlib Require Import Lqa.
Import ListNotations.
Local Open Scope string_scope.
Local Open Scope Z_scope.

(** ** Python values and control flow *)

(** An exception object: its class, what [str(e)] gives, and the exception
    it was raised from ([__cause__]), if any. *)
Inductive exn : Type :=
| Exn (type : string) (str : string)
| ExnFrom (type : string) (str : string) (cause : exn).

Definition exn_type (e : exn) : string :=
  match e with Exn t _ | ExnFrom t _ _ => t end.
Definition exn_str (e : exn) : string :=
  match e with Exn _ s | ExnFrom _ s _ => s end.
Definition exn_cause (e : exn) : option exn :=
  match e with Exn _ _ => None | ExnFrom _ _ c => Some c end.

(** How a Python call ends.  [SysExit] is [SystemExit], which derives from
    [BaseException] and is therefore not caught by [except Exception].
    [OutOfFuel] is not a Python result: it marks a run of the model that was
    cut while a [while] loop was still iterating. *)
Inductive outcome (A : Type) : Type :=
| Ret (a : A)
| Raise (e : exn)
| SysExit (code : Z)
| OutOfFuel.
Arguments Ret {A} a.
Arguments Raise {A} e.
Arguments SysExit {A} code.
Arguments OutOfFuel {A}.

(** A computation on the world [W]. *)
Definition M (W A : Type) : Type := W -> W * outcome A.

Definition ret {W A} (a : A) : M W A := fun w => (w, Ret a).

Definition bind {W A B} (m : M W A) (k : A -> M W B) : M W B :=
  fun w =>
    match m w with
    | (w', Ret a) => k a w'
    | (w', Raise e) => (w', Raise e)
    | (w', SysExit c) => (w', SysExit c)
    | (w', OutOfFuel) => (w', OutOfFuel)
    end.

Definition raise {W A} (e : exn) : M W A := fun w => (w, Raise e).

(** [sys.exit(code)] *)
Definition sys_exit {W A} (code : Z) : M W A := fun w => (w, SysExit code).

(** A world update that cannot fail ([print], [time.sleep]). *)
Definition effect {W} (f : W -> W) : M W unit := fun w => (f w, Ret tt).

(** An external call that answers with a value or raises. *)
Definition call {W A} (f : W -> W * (exn + A)) : M W A :=
  fun w =>
    match f w with
    | (w', inr a) => (w', Ret a)
    | (w', inl e) => (w', Raise e)
    end.

Declare Scope py_scope.
Delimit Scope py_scope with py.
Notation "x <- m ;; k" := (bind m (fun x => k))
  (at level 61, m at next level, right associativity) : py_scope.
Notation "m ;;; k" := (bind m (fun _ => k))
  (at level 61, right associativity) : py_scope.
Local Open Scope py_scope.

(** [needle in hay] on strings. *)
Fixpoint contains (needle hay : string) : bool :=
  if String.prefix needle hay then true
  else match hay with
       | EmptyString => false
       | String _ rest => contains needle rest
       end.

(** [raise None]: Python refuses it with a [TypeError]. *)
Definition raise_None_error : exn :=
  Exn "TypeError" "exceptions must derive from BaseException".

(** ** [pathlib] paths

    A [Path] is kept as its text, [str(path)].  The model is the one of
    [PurePosixPath]: a root (nothing, one slash, or exactly two), and the
    parts between slashes with the empty ones and the dots dropped. *)

(** The pieces of [s] between slashes; [cur] is the piece being read. *)
Fixpoint split_slash (cur s : string) : list string :=
  match s with
  | EmptyString => [cur]
  | String c rest =>
      if Ascii.eqb c "/" then cur :: split_slash "" rest
      else split_slash (cur ++ String c "") rest
  end.

Definition posix_root (s : string) : string :=
  if String.prefix "//" s && negb (String.prefix "///" s) then "//"
  else if String.prefix "/" s then "/"
  else "".

Definition posix_parts (s : string) : list string :=
  filter (fun part => negb (String.eqb part "" || String.eqb part "."))
         (split_slash "" s).

(** [str] of the path with this root and these parts. *)
Definition posix_str (root : string) (parts : list string) : string :=
  match root, parts with
  | EmptyString, [] => "."
  | _, _ => root ++ String.concat "/" parts
  end.

(** [str(Path(s))] *)
Definition posix_path (s : string) : string :=
  posix_str (posix_root s) (posix_parts s).

(** [str(Path(a) / b)]: an absolute [b] replaces [a]. *)
Definition posix_join (a b : string) : string :=
  if String.eqb (posix_root b) "" then
    posix_str (posix_root a) (posix_parts a ++ posix_parts b)
  else posix_path b.

(** ** Floats

    A float is given by the rational it stands for.  Every float operation
    ends with the rounding to the nearest binary64 value, ties to the even
    mantissa. *)

(** [n / d] rounded to the nearest integer, ties to even; [0 <= n],
    [0 < d]. *)
Definition round_half_even (n d : Z) : Z :=
  let q := n / d in
  let r := n mod d in
  if 2 * r <? d then q
  else if d <? 2 * r then q + 1
  else if Z.even q then q else q + 1.

(** The binary64 value nearest to [q], for [q] within the range of the
    floats: the exponent [e] with [2^e <= |q| < 2^(e+1)], the unit
    [2^p] of the last of the 53 bits (not below [2^-1074]), and the
    multiple of that unit nearest to [|q|]. *)
Definition float_round (q : Q) : Q :=
  let n := Qnum q in
  let d := Z.pos (Qden q) in
  if n =? 0 then 0%Q
  else
    let a := Z.abs n in
    let e0 := Z.log2 a - Z.log2 d in
    let below :=
      if 0 <=? e0 then a <? d * 2 ^ e0 else a * 2 ^ (- e0) <? d in
    let e := if below then e0 - 1 else e0 in
    let p := Z.max (e - 52) (-1074) in
    let m :=
      if 0 <=? p then round_half_even a (d * 2 ^ p)
      else round_half_even (a * 2 ^ (- p)) d in
    let v :=
      if 0 <=? p then inject_Z (m * 2 ^ p)
      else Qred (m # Z.to_pos (2 ^ (- p))) in
    if n <? 0 then (- v)%Q else v.

Definition overflow_error : exn :=
  Exn "OverflowError" "int too large to convert to float".

(** An integer used where a float is needed.  From [2^1024 - 2^970] on,
    the value that would round to [2^1024], Python raises
    [OverflowError]. *)
Definition float_of_int (n : Z) : exn + Q :=
  if Z.abs n <? 2 ^ 1024 - 2 ^ 970 then inr (float_round (inject_Z n))
  else inl overflow_error.

(** [n + x] for an integer [n] and a float [x]: the integer becomes a
    float, then the floats are added. *)
Definition int_plus_float (n : Z) (x : Q) : exn + Q :=
  match float_of_int n with
  | inl e => inl e
  | inr f => inr (float_round (f + x))
  end.

(** ** create_clip.py *)

Module CreateClip.

(** Lines written to standard output by [create_clip.py]. *)
Inductive notice : Type :=
| RateLimited (delay : Q) (retry : nat) (max_retries : Z)
| MaxRetriesExceeded (max_retries : Z) (last_exception : option exn)
| ErrorMissingEnvironment
| GeneratingImage (output_path prompt : string)
| GeneratingVariation (output_path reference_path prompt : string)
| Saved (output_path : string) (size : nat)
| ErrorNoImageInResponse
| GeneratingVideo (output_path first_frame last_frame : string)
                  (duration : Z) (prompt : string)
| Waiting (poll_count : nat)
| VideoAtGCS (uri : string)
| NoteDownloadManually
| ErrorNoVideoGenerated
| CreatingClip (clip_id aspect_ratio : string) (duration : Z) (clip_dir : string)
| StepStartFrame
| StepEndFrame
| StepTransitionVideo
| ClipComplete (clip_id : string).

(** The clock, the random generator and standard output. *)
Class Runtime (W : Type) : Type := {
  print : notice -> W -> W;
  sleep : Q -> W -> W;
  random_uniform : Q -> Q -> W -> W * Q
}.

Definition BASE_DELAY : Z := 5.
Definition MAX_DELAY : Z := 120.
(** [MAX_RETRIES] is a module global that [main] overwrites from
    [--max-retries]; the wrapper reads it at call time, so it is an argument
    here.  Its default: *)
Definition MAX_RETRIES_default : Z := 8.

(** [  "429" in error_str or "RESOURCE_EXHAUSTED" in error_str ] *)
Definition is_rate_limit (e : exn) : bool :=
  contains "429" (exn_str e) || contains "RESOURCE_EXHAUSTED" (exn_str e).

(** [min(BASE_DELAY * (2 ** attempt) + random.uniform(0, 2), MAX_DELAY)],
    with [jitter] the number drawn: the product is an integer, the sum a
    float; the sum raises [OverflowError] when the product is too large
    for a float (from attempt 1022 on). *)
Definition backoff_delay (attempt : nat) (jitter : Q) : exn + Q :=
  match int_plus_float (BASE_DELAY * 2 ^ Z.of_nat attempt) jitter with
  | inl e => inl e
  | inr sum => inr (Qmin sum (inject_Z MAX_DELAY))
  end.

Section Retry.
Context {W : Type} {RT : Runtime W} {A : Type}.
Variable MAX_RETRIES : Z.
Variable func : M W A.

(** Lines 46-49, the rate-limited branch of the handler: draw the jitter,
    compute the delay, announce it, sleep.  [w1] is the world the failed
    attempt left; the result is the world the next attempt starts in, or
    the exception of the delay's computation, raised after the jitter was
    drawn and before anything is printed. *)
Definition after_backoff (attempt : nat) (w1 : W) : W * (exn + unit) :=
  let (w2, jitter) := random_uniform 0 2 w1 in
  match backoff_delay attempt jitter with
  | inl e => (w2, inl e)
  | inr delay =>
      let w3 := print (RateLimited delay (attempt + 1) MAX_RETRIES) w2 in
      (sleep delay w3, inr tt)
  end.

(** The body of [for attempt in range(MAX_RETRIES)], over the attempt
    indices still to run, followed by the two lines after the loop. *)
Fixpoint retry_loop (attempts : list nat) (last_exception : option exn)
  : M W A :=
  match attempts with
  | [] =>
      effect (print (MaxRetriesExceeded MAX_RETRIES last_exception)) ;;;
      match last_exception with
      | Some e => raise e
      | None => raise raise_None_error
      end
  | attempt :: rest =>
      fun w =>
        match func w with
        | (w1, Ret a) => (w1, Ret a)
        | (w1, Raise e) =>
            if is_rate_limit e then
              match after_backoff attempt w1 with
              | (w2, inr _) => retry_loop rest (Some e) w2
              | (w2, inl e') => (w2, Raise e')
              end
            else (w1, Raise e)
        | (w1, SysExit c) => (w1, SysExit c)
        | (w1, OutOfFuel) => (w1, OutOfFuel)
        end
  end.

(** [wrapper] of the decorator [retry_on_429]. *)
Definition retry_on_429 : M W A :=
  retry_loop (seq 0 (Z.to_nat MAX_RETRIES)) None.

(** The world in which the attempt of index [attempt + i] starts, when the
    [i] attempts before it, the first of index [attempt] and started in
    [w], were all rate limited. *)
Fixpoint attempt_world_from (attempt i : nat) (w : W) : W :=
  match i with
  | O => w
  | S i' =>
      attempt_world_from (S attempt) i'
        (fst (after_backoff attempt (fst (func w))))
  end.

(** The same for a call of the wrapper in [w]: where its attempt of index
    [i] starts. *)
Definition attempt_world (i : nat) (w : W) : W := attempt_world_from 0 i w.
End Retry.

(** *** The generative service and the file system *)

Definition bytes : Type := list Byte.byte.

Inductive credentials : Type :=
| ServiceAccount (path : string) (scopes : list string).

(** [genai.Client(vertexai=True, project=..., location=..., credentials=...)] *)
Record client : Type := Client {
  client_project : option string;
  client_location : string;
  client_credentials : credentials
}.

Record blob : Type := Blob { mime_type : string; data : bytes }.
Record part : Type := Part { inline_data : option blob }.
(** [response.candidates]; a candidate is given by its [content.parts]. *)
Record response : Type := Response { candidates : list (list part) }.

Inductive content : Type :=
| Text (s : string)
| FromBytes (data : bytes) (mime : string).

Record image : Type := Image { image_bytes : bytes; image_mime : string }.

(** [video.video_bytes] is raw bytes or base64 text. *)
Inductive video_payload : Type :=
| RawBytes (b : bytes)
| Base64Text (s : string).

Record video : Type := Video {
  video_bytes : option video_payload;
  uri : option string
}.
Record generated_video : Type := GeneratedVideo { gv_video : video }.
Record videos_response : Type := VideosResponse {
  generated_videos : list generated_video
}.
(** The long-running operation handle; [operation.result] is
    [operation.response]. *)
Record operation : Type := Operation {
  op_name : string;
  done : bool;
  op_response : option videos_response
}.

Record videos_request : Type := VideosRequest {
  vr_model : string;
  vr_prompt : string;
  vr_image : image;
  vr_aspect_ratio : string;
  vr_duration_seconds : Z;
  vr_generate_audio : bool;
  vr_resolution : string;
  vr_last_frame : image
}.

Class Services (W : Type) : Type := {
  (** [os.environ.get] *)
  environ_get : string -> W -> option string;
  (** [Credentials.from_service_account_file(path, scopes=scopes)] *)
  from_service_account_file :
    option string -> list string -> W -> W * (exn + credentials);
  (** [clip_dir.mkdir(parents=True, exist_ok=True)] *)
  mkdir_parents : string -> W -> W * (exn + unit);
  (** [client.models.generate_content(model, contents, config)]; of the
      config only the aspect ratio varies *)
  generate_content :
    client -> string -> list content -> string -> W -> W * (exn + response);
  (** [with open(path, "wb") as f: f.write(b)] *)
  write_bytes : string -> bytes -> W -> W * (exn + unit);
  (** [with open(path, "rb") as f: f.read()] *)
  read_bytes : string -> W -> W * (exn + bytes);
  (** [types.Image.from_file(location=path)] *)
  image_from_file : string -> W -> W * (exn + image);
  (** [client.models.generate_videos(...)] *)
  generate_videos : client -> videos_request -> W -> W * (exn + operation);
  (** [client.operations.get(operation)] *)
  operations_get : client -> operation -> W -> W * (exn + operation);
  (** [base64.b64decode] *)
  b64decode : string -> exn + bytes
}.

(** [Path(a) / b], with the paths given by their [str]. *)
Definition path_join (a b : string) : string := posix_join a b.

(** [path.name]: the text after the last slash. *)
Fixpoint path_name_from (acc s : string) : string :=
  match s with
  | EmptyString => acc
  | String c rest =>
      if Ascii.eqb c "/" then path_name_from "" rest
      else path_name_from (acc ++ String c "") rest
  end.
Definition path_name (p : string) : string := path_name_from "" p.

(** [pathlib.Path] defines neither [__bool__] nor [__len__]: every path
    object is true in a condition. *)
Definition path_truthy (p : string) : bool := true.

(** [not s] for a value that is [None] or a string. *)
Definition falsy (s : option string) : bool :=
  match s with
  | None => true
  | Some EmptyString => true
  | Some _ => false
  end.

(** [prompt[:80]] *)
Definition first80 (prompt : string) : string := String.substring 0 80 prompt.

Definition index_error : exn :=
  Exn "IndexError" "list index out of range".

Section Generation.
Context {W : Type} {RT : Runtime W} {SV : Services W}.
Variable MAX_RETRIES : Z.

Definition scopes : list string :=
  ["https://www.googleapis.com/auth/cloud-platform"].

Definition setup_image_client : M W client :=
  fun w =>
    let project_id := environ_get "VERTEX_AI_PROJECT_ID" w in
    let service_account_path :=
      environ_get "VERTEX_AI_SERVICE_ACCOUNT_JSON" w in
    if falsy project_id || falsy service_account_path then
      (effect (print ErrorMissingEnvironment) ;;; sys_exit 1) w
    else
      (credentials <-
         call (from_service_account_file service_account_path scopes) ;;
       ret (Client project_id "global" credentials)) w.

Definition setup_video_client : M W client :=
  fun w =>
    let project_id := environ_get "VERTEX_AI_PROJECT_ID" w in
    let service_account_path :=
      environ_get "VERTEX_AI_SERVICE_ACCOUNT_JSON" w in
    (credentials <-
       call (from_service_account_file service_account_path scopes) ;;
     ret (Client project_id "us-central1" credentials)) w.

(** [part.inline_data and part.inline_data.mime_type.startswith("image/")] *)
Definition is_image_part (p : part) : bool :=
  match inline_data p with
  | Some b => String.prefix "image/" (mime_type b)
  | None => false
  end.

(** The loop over [response.candidates[0].content.parts] shared by
    [generate_image] and [generate_variation], with the two lines after
    it. *)
Fixpoint save_first_image (parts : list part) (output_path : string)
  : M W string :=
  match parts with
  | [] =>
      effect (print ErrorNoImageInResponse) ;;;
      sys_exit 1
  | p :: rest =>
      match inline_data p with
      | Some b =>
          if String.prefix "image/" (mime_type b) then
            call (write_bytes output_path (data b)) ;;;
            effect (print (Saved output_path (List.length (data b)))) ;;;
            ret output_path
          else save_first_image rest output_path
      | None => save_first_image rest output_path
      end
  end.

(** [response.candidates[0].content.parts] *)
Definition first_candidate_parts (r : response) : M W (list part) :=
  match candidates r with
  | [] => raise index_error
  | parts :: _ => ret parts
  end.

Definition IMAGE_MODEL : string := "gemini-3-pro-image-preview".

(** The function under the decorator (what [functools.wraps] keeps as
    [__wrapped__]). *)
Definition generate_image_wrapped
  (cl : client) (prompt aspect_ratio output_path : string) : M W string :=
  effect (print (GeneratingImage (path_name output_path) (first80 prompt))) ;;;
  r <- call (generate_content cl IMAGE_MODEL [Text prompt] aspect_ratio) ;;
  parts <- first_candidate_parts r ;;
  save_first_image parts output_path.

Definition generate_image
  (cl : client) (prompt aspect_ratio output_path : string) : M W string :=
  retry_on_429 MAX_RETRIES
    (generate_image_wrapped cl prompt aspect_ratio output_path).

Definition generate_variation_wrapped
  (cl : client) (reference_path prompt aspect_ratio output_path : string)
  : M W string :=
  effect (print (GeneratingVariation (path_name output_path)
                   (path_name reference_path) (first80 prompt))) ;;;
  reference_bytes <- call (read_bytes reference_path) ;;
  r <- call (generate_content cl IMAGE_MODEL
               [FromBytes reference_bytes "image/png"; Text prompt]
               aspect_ratio) ;;
  parts <- first_candidate_parts r ;;
  save_first_image parts output_path.

Definition generate_variation
  (cl : client) (reference_path prompt aspect_ratio output_path : string)
  : M W string :=
  retry_on_429 MAX_RETRIES
    (generate_variation_wrapped cl reference_path prompt aspect_ratio
       output_path).

(** [while not operation.done: ...] (lines 193-198).  Python gives the
    loop no bound; [fuel] bounds the number of iterations the model
    runs. *)
Fixpoint poll_loop (fuel : nat) (cl : client) (poll_count : nat)
  (op : operation) : M W operation :=
  if done op then ret op
  else
    match fuel with
    | O => fun w => (w, OutOfFuel)
    | S fuel' =>
        effect (print (Waiting (poll_count + 1))) ;;;
        effect (sleep 15) ;;;
        op' <- call (operations_get cl op) ;;
        poll_loop fuel' cl (poll_count + 1) op'
    end.

(** The handle and the world after [k] iterations of the loop body, when
  every refetch answered; the loop's condition is not looked at. *)
Fixpoint refetched (k : nat) (cl : client) (poll_count : nat)
  (op : operation) (w : W) : option (W * operation) :=
  match k with
  | O => Some (w, op)
  | S k' =>
      match operations_get cl op
              (sleep 15 (print (Waiting (poll_count + 1)) w)) with
      | (w', inr op') => refetched k' cl (poll_count + 1) op' w'
      | (_, inl _) => None
      end
  end.

(** [video.video_bytes] in a condition: absent or empty is false. *)
Definition payload_truthy (p : option video_payload) : bool :=
  match p with
  | Some (RawBytes (_ :: _)) => true
  | Some (Base64Text (String _ _)) => true
  | _ => false
  end.

(** Lines 200-219: what is done with the terminal operation. *)
Definition extract_video (op : operation) (output_path : string)
  : M W (option string) :=
  let no_video :=
    effect (print ErrorNoVideoGenerated) ;;;
    ret None in
  match op_response op with
  | Some result =>
      match generated_videos result with
      | gv :: _ =>
          let video := gv_video gv in
          if payload_truthy (video_bytes video) then
            video_bytes <-
              match video_bytes video with
              | Some (Base64Text s) =>
                  call (fun w => (w, b64decode s))
              | Some (RawBytes b) => ret b
              | None => ret []
              end ;;
            call (write_bytes output_path video_bytes) ;;;
            effect (print (Saved output_path (List.length video_bytes))) ;;;
            ret (Some output_path)
          else if negb (falsy (uri video)) then
            effect (print (VideoAtGCS (match uri video with
                                       | Some u => u
                                       | None => ""
                                       end))) ;;;
            effect (print NoteDownloadManually) ;;;
            ret None
          else no_video
      | [] => no_video
      end
  | None => no_video
  end.

Definition VIDEO_MODEL : string := "veo-3.1-generate-001".

Definition generate_video_wrapped (fuel : nat)
  (cl : client) (first_frame last_frame prompt aspect_ratio : string)
  (duration : Z) (output_path : string) : M W (option string) :=
  effect (print (GeneratingVideo (path_name output_path)
                   (path_name first_frame) (path_name last_frame)
                   duration (first80 prompt))) ;;;
  first_image <- call (image_from_file first_frame) ;;
  last_image <- call (image_from_file last_frame) ;;
  op <- call (generate_videos cl
                (VideosRequest VIDEO_MODEL prompt first_image aspect_ratio
                   duration false "720p" last_image)) ;;
  op <- poll_loop fuel cl 0 op ;;
  extract_video op output_path.

Definition generate_video (fuel : nat)
  (cl : client) (first_frame last_frame prompt aspect_ratio : string)
  (duration : Z) (output_path : string) : M W (option string) :=
  retry_on_429 MAX_RETRIES
    (generate_video_wrapped fuel cl first_frame last_frame prompt
       aspect_ratio duration output_path).

(** The [config] dictionary: the four keys read with [config[...]] and
    the three read with [config.get(..., default)]. *)
Record clip_config : Type := ClipConfig {
  cfg_clip_id : string;
  cfg_start_prompt : string;
  cfg_end_prompt : string;
  cfg_transition_prompt : string;
  cfg_aspect_ratio : option string;
  cfg_duration : option Z;
  cfg_output_dir : option string
}.

(** The dictionary returned by [create_clip]. *)
Record clip_result : Type := ClipResult {
  res_clip_id : string;
  res_start : string;
  res_end : string;
  res_video : option string
}.

Definition get_default {A} (o : option A) (d : A) : A :=
  match o with Some a => a | None => d end.

Definition consistency_prompt (end_prompt : string) : string :=
  "Generate the exact same scene/person from the reference image, but now: "
  ++ end_prompt ++ ". Maintain visual consistency.".

Definition create_clip (fuel : nat) (config : clip_config)
  : M W clip_result :=
  let clip_id := cfg_clip_id config in
  let start_prompt := cfg_start_prompt config in
  let end_prompt := cfg_end_prompt config in
  let transition_prompt := cfg_transition_prompt config in
  let aspect_ratio := get_default (cfg_aspect_ratio config) "9:16" in
  let duration := get_default (cfg_duration config) 4 in
  let output_dir := get_default (cfg_output_dir config) "output" in
  let clip_dir := path_join output_dir clip_id in
  call (mkdir_parents clip_dir) ;;;
  effect (print (CreatingClip clip_id aspect_ratio duration clip_dir)) ;;;
  image_client <- setup_image_client ;;
  video_client <- setup_video_client ;;
  effect (print StepStartFrame) ;;;
  let start_path := path_join clip_dir "start.png" in
  generate_image image_client start_prompt aspect_ratio start_path ;;;
  effect (print StepEndFrame) ;;;
  let end_path := path_join clip_dir "end.png" in
  generate_variation image_client start_path
    (consistency_prompt end_prompt) aspect_ratio end_path ;;;
  effect (print StepTransitionVideo) ;;;
  let video_path := path_join clip_dir "clip.mp4" in
  generate_video fuel video_client start_path end_path transition_prompt
    aspect_ratio duration video_path ;;;
  effect (print (ClipComplete clip_id)) ;;;
  ret (ClipResult clip_id start_path end_path
         (if path_truthy video_path then Some video_path else None)).
End Generation.

End CreateClip.

(** ** chain_clips.py *)

Module ChainClips.

(** One [xfade=transition=fade:duration=...:offset=...] filter of the
    [-filter_complex] graph: the two input labels, the fade length, the
    timeline offset and the output label. *)
Record xfade : Type := Xfade {
  xf_first : string;
  xf_second : string;
  xf_duration : Q;
  xf_offset : Q;
  xf_output : string
}.

(** An argument of a command line.  The two filter graphs are kept
    structured instead of being printed into text; [ConcatFilter inputs n]
    is ["[i:v]"] for every [i] of [inputs] followed by
    ["concat=n=<n>:v=1[v]"]. *)
Inductive arg : Type :=
| Arg (s : string)
| XfadeFilter (chain : list xfade)
| ConcatFilter (inputs : list nat) (n : nat).
Coercion Arg : string >-> arg.

Definition command : Type := list arg.

(** [subprocess.CompletedProcess] with [capture_output=True, text=True]. *)
Record completed_process : Type := CompletedProcess {
  returncode : Z;
  stdout : string;
  stderr : string
}.

Inductive notice : Type :=
| ErrorNoVideoFile (clip_dir : string)
| UsingSimple
| UsingCrossfade (fade_duration : Q)
| UsingReencode
| Running (cmd : command)
| ErrorFfmpegFailed (stderr : string)
| OutputIs (output_path : string)
| ErrorCrossfadeSupports
| ChainingClips (n : nat)
| ErrorDirectoryNotFound (clip_dir : string)
| Found (video_path : string) (duration : Q)
| TotalInputDuration (total_duration : Q)
| ChainComplete (output_path : string) (final_duration : Q)
| SizeKB (size : Q).

Class Services (W : Type) : Type := {
  print : notice -> W -> W;
  (** [path.exists()] *)
  path_exists : string -> W -> bool;
  (** [list(clip_dir.glob("*.mp4"))] *)
  glob_mp4 : string -> W -> list string;
  (** [path.absolute()] *)
  absolute : string -> W -> string;
  (** the [with NamedTemporaryFile(mode='w', suffix='.txt', delete=False)]
      block: writes the lines, gives the file's name *)
  write_list_file : list string -> W -> W * (exn + string);
  (** [os.unlink] *)
  unlink : string -> W -> W * (exn + unit);
  (** [subprocess.run(cmd, capture_output=True, text=True)] *)
  run : command -> W -> W * (exn + completed_process);
  (** [path.mkdir(parents=True, exist_ok=True)] *)
  mkdir_parents : string -> W -> W * (exn + unit);
  (** [path.stat().st_size] *)
  stat_size : string -> W -> W * (exn + Z);
  (** the builtin [float] on text *)
  py_float : string -> exn + Q
}.

(** [a / b], with the paths given by their [str]. *)
Definition path_join (a b : string) : string := posix_join a b.

(** [path.parent] of a normalised path: the text before the last slash,
    ["."] without one, ["/"] for a file of the root. *)
Fixpoint path_parent_from (seen acc s : string) : string :=
  match s with
  | EmptyString => acc
  | String c rest =>
      if Ascii.eqb c "/" then path_parent_from (seen ++ "/") seen rest
      else path_parent_from (seen ++ String c "") acc rest
  end.
Definition path_parent (p : string) : string :=
  match path_parent_from "" "." p with
  | EmptyString => "/"
  | parent => parent
  end.

(** ASCII white space, what [str.strip()] removes at both ends. *)
Definition is_space (c : ascii) : bool :=
  let n := nat_of_ascii c in
  ((9 <=? n) && (n <=? 13) || (28 <=? n) && (n <=? 32))%nat.

Fixpoint lstrip (s : string) : string :=
  match s with
  | EmptyString => EmptyString
  | String c rest => if is_space c then lstrip rest else s
  end.

Fixpoint rstrip (s : string) : string :=
  match s with
  | EmptyString => EmptyString
  | String c rest =>
      match rstrip rest with
      | EmptyString => if is_space c then EmptyString else String c EmptyString
      | rest' => String c rest'
      end
  end.

Definition strip (s : string) : string := rstrip (lstrip s).

Definition newline : string := String (ascii_of_nat 10) EmptyString.

Section Chain.
Context {W : Type} {SV : Services W}.

(** [try: body finally: cleanup] *)
Definition finally {A} (body : M W A) (cleanup : M W unit) : M W A :=
  fun w =>
    let (w1, r) := body w in
    match cleanup w1 with
    | (w2, Ret _) => (w2, r)
    | (w2, Raise e) => (w2, Raise e)
    | (w2, SysExit c) => (w2, SysExit c)
    | (w2, OutOfFuel) => (w2, OutOfFuel)
    end.

(** [for name in ["clip.mp4", "video.mp4"]: ...] *)
Fixpoint first_existing (clip_dir : string) (names : list string) (w : W)
  : option string :=
  match names with
  | [] => None
  | name :: rest =>
      let video_path := path_join clip_dir name in
      if path_exists video_path w then Some video_path
      else first_existing clip_dir rest w
  end.

Definition find_clip_video (clip_dir : string) : M W string :=
  fun w =>
    match first_existing clip_dir ["clip.mp4"; "video.mp4"] w with
    | Some video_path => (w, Ret video_path)
    | None =>
        match glob_mp4 clip_dir w with
        | first :: _ => (w, Ret first)
        | [] =>
            (effect (print (ErrorNoVideoFile clip_dir)) ;;; sys_exit 1) w
        end
    end.

(** [print("Running"); result = subprocess.run(cmd); if returncode != 0:
    print error, sys.exit(1); print output]: the tail common to the three
    strategies. *)
Definition run_ffmpeg (cmd : command) (output_path : string) : M W unit :=
  effect (print (Running cmd)) ;;;
  result <- call (run cmd) ;;
  if negb (returncode result =? 0) then
    effect (print (ErrorFfmpegFailed (stderr result))) ;;;
    sys_exit 1
  else
    effect (print (OutputIs output_path)).

Definition concat_simple_cmd (list_file output_path : string) : command :=
  [Arg "ffmpeg"; Arg "-y";
   Arg "-f"; Arg "concat";
   Arg "-safe"; Arg "0";
   Arg "-i"; Arg list_file;
   Arg "-c"; Arg "copy";
   Arg output_path].

Definition concat_simple (clip_paths : list string) (output_path : string)
  : M W unit :=
  effect (print UsingSimple) ;;;
  list_file <-
    (fun w =>
       call (write_list_file
               (map (fun clip => "file '" ++ absolute clip w ++ "'" ++ newline)
                  clip_paths)) w) ;;
  finally
    (run_ffmpeg (concat_simple_cmd list_file output_path) output_path)
    (call (unlink list_file)).

Definition encode_tail (output_path : string) : command :=
  [Arg "-map"; Arg "[v]";
   Arg "-c:v"; Arg "libx264";
   Arg "-preset"; Arg "fast";
   Arg "-crf"; Arg "23";
   Arg output_path].

(** The command built by [concat_with_crossfade]; [None] is the
    [else] branch (neither 2 nor 3 clips).  The offsets are the literals
    [3.5] and [7] of the source. *)
Definition crossfade_cmd (clip_paths : list string) (output_path : string)
  (fade_duration : Q) : option command :=
  match clip_paths with
  | [v1; v2] =>
      Some ([Arg "ffmpeg"; Arg "-y";
             Arg "-i"; Arg v1;
             Arg "-i"; Arg v2;
             Arg "-filter_complex";
             XfadeFilter
               [Xfade "0:v" "1:v" fade_duration (7 # 2) "v"]]
            ++ encode_tail output_path)%list
  | [v1; v2; v3] =>
      Some ([Arg "ffmpeg"; Arg "-y";
             Arg "-i"; Arg v1;
             Arg "-i"; Arg v2;
             Arg "-i"; Arg v3;
             Arg "-filter_complex";
             XfadeFilter
               [Xfade "0:v" "1:v" fade_duration (7 # 2) "v01";
                Xfade "v01" "2:v" fade_duration 7 "v"]]
            ++ encode_tail output_path)%list
  | _ => None
  end.

Definition concat_with_crossfade (clip_paths : list string)
  (output_path : string) (fade_duration : Q) : M W unit :=
  effect (print (UsingCrossfade fade_duration)) ;;;
  match crossfade_cmd clip_paths output_path fade_duration with
  | Some cmd => run_ffmpeg cmd output_path
  | None =>
      effect (print ErrorCrossfadeSupports) ;;;
      sys_exit 1
  end.

Definition reencode_cmd (clip_paths : list string) (output_path : string)
  : command :=
  ([Arg "ffmpeg"; Arg "-y"]
   ++ flat_map (fun clip => [Arg "-i"; Arg clip]) clip_paths
   ++ [Arg "-filter_complex";
       ConcatFilter (seq 0 (List.length clip_paths)) (List.length clip_paths)]
   ++ encode_tail output_path)%list.

Definition concat_with_reencode (clip_paths : list string)
  (output_path : string) : M W unit :=
  effect (print UsingReencode) ;;;
  run_ffmpeg (reencode_cmd clip_paths output_path) output_path.

Definition ffprobe_cmd (video_path : string) : command :=
  [Arg "ffprobe";
   Arg "-v"; Arg "error";
   Arg "-show_entries"; Arg "format=duration";
   Arg "-of"; Arg "default=noprint_wrappers=1:nokey=1";
   Arg video_path].

Definition get_video_duration (video_path : string) : M W Q :=
  result <- call (run (ffprobe_cmd video_path)) ;;
  if returncode result =? 0 then
    call (fun w => (w, py_float (strip (stdout result))))
  else ret 0%Q.

(** The loop [for clip_dir in clip_dirs] of [chain_clips], from the
    values of [clip_paths] and [total_duration] so far.  The directories
    are [Path] objects, as [main] makes them and the annotation
    [list[Path]] says, each given by its [str]; [Path(clip_dir)] of a
    [Path] is that same path. *)
Fixpoint discover (clip_dirs clip_paths : list string) (total_duration : Q)
  : M W (list string * Q) :=
  match clip_dirs with
  | [] => ret (clip_paths, total_duration)
  | clip_dir :: rest =>
      fun w =>
        if negb (path_exists clip_dir w) then
          (effect (print (ErrorDirectoryNotFound clip_dir)) ;;; sys_exit 1) w
        else
          (video_path <- find_clip_video clip_dir ;;
           duration <- get_video_duration video_path ;;
           effect (print (Found video_path duration)) ;;;
           discover rest (clip_paths ++ [video_path])%list
             (total_duration + duration)%Q) w
  end.

(** [crossfade > 0] *)
Definition positive (crossfade : Q) : bool := negb (Qle_bool crossfade 0).

(** Lines 224-229 of [chain_clips]. *)
Definition concat_selected (clip_paths : list string) (output_path : string)
  (crossfade : Q) (reencode : bool) : M W unit :=
  if positive crossfade then
    concat_with_crossfade clip_paths output_path crossfade
  else if reencode then
    concat_with_reencode clip_paths output_path
  else
    concat_simple clip_paths output_path.

(** Lines 231-239 of [chain_clips]: probe the output, report, return. *)
Definition chain_report (output_path : string) : M W string :=
  final_duration <- get_video_duration output_path ;;
  effect (print (ChainComplete output_path final_duration)) ;;;
  size <- call (stat_size output_path) ;;
  effect (print (SizeKB (inject_Z size / 1024)%Q)) ;;;
  ret output_path.

Definition chain_clips (clip_dirs : list string) (output_path : string)
  (crossfade : Q) (reencode : bool) : M W string :=
  effect (print (ChainingClips (List.length clip_dirs))) ;;;
  found <- discover clip_dirs [] 0%Q ;;
  let (clip_paths, total_duration) := found in
  effect (print (TotalInputDuration total_duration)) ;;;
  effect (print (OutputIs output_path)) ;;;
  call (mkdir_parents (path_parent output_path)) ;;;
  concat_selected clip_paths output_path crossfade reencode ;;;
  chain_report output_path.
End Chain.

(** The offsets of the transitions a command asks for. *)
Definition xfade_offsets (cmd : command) : list Q :=
  flat_map (fun a => match a with
                     | XfadeFilter chain => map xf_offset chain
                     | _ => []
                     end) cmd.

End ChainClips.

(** ** Test doubles

    A world that records what the scripts print and how long they sleep,
    counts the requests sent to the generative service, and answers them
    from a script indexed by the request number. *)

Module ClipStub.
Import CreateClip.

Inductive entry : Type :=
| Printed (n : notice)
| Slept (seconds : Q).

Record world : Type := World {
  log : list entry;
  image_requests : nat;
  video_requests : nat;
  polls : nat
}.

Definition start : world := World [] 0 0 0.

(** What the service answers to the [n]-th request of each kind. *)
Record scenario : Type := Scenario {
  content_answer : nat -> exn + response;
  videos_answer : nat -> exn + operation;
  poll_answer : nat -> exn + operation
}.

Definition record (e : entry) (w : world) : world :=
  World (log w ++ [e]) (image_requests w) (video_requests w) (polls w).

(** The jitter drawn by the stub is always [1], inside [0, 2]. *)
#[export] Instance stub_runtime : Runtime world := {
  print n w := record (Printed n) w;
  sleep d w := record (Slept d) w;
  random_uniform a b w := (w, 1%Q)
}.

Definition stub_services (sc : scenario) : Services world := {|
  environ_get name w := Some ("value-of-" ++ name);
  from_service_account_file path scopes w :=
    match path with
    | Some p => (w, inr (ServiceAccount p scopes))
    | None => (w, inl (Exn "TypeError" "expected str, not NoneType"))
    end;
  CreateClip.mkdir_parents p w := (w, inr tt);
  generate_content cl model contents aspect w :=
    (World (log w) (S (image_requests w)) (video_requests w) (polls w),
     content_answer sc (image_requests w));
  write_bytes p b w := (w, inr tt);
  read_bytes p w := (w, inr []);
  image_from_file p w := (w, inr (Image [] "image/png"));
  generate_videos cl req w :=
    (World (log w) (image_requests w) (S (video_requests w)) (polls w),
     videos_answer sc (video_requests w));
  operations_get cl op w :=
    (World (log w) (image_requests w) (video_requests w) (S (polls w)),
     poll_answer sc (polls w));
  b64decode s := inr []
|}.

(** An operation whose [n]-th invocation ends as [script n]; invocations
    are counted in [image_requests]. *)
Definition scripted {A} (script : nat -> outcome A) : M world A :=
  fun w =>
    (World (log w) (S (image_requests w)) (video_requests w) (polls w),
     script (image_requests w)).

Definition rate_limit_error : exn :=
  Exn "ClientError" "429 RESOURCE_EXHAUSTED. Quota exceeded.".

Definition permission_error : exn :=
  Exn "ClientError" "403 PERMISSION_DENIED".

Definition always_rate_limited : nat -> outcome string :=
  fun _ => Raise rate_limit_error.

(** Rate limited on the first two invocations, then a result. *)
Definition rate_limited_twice : nat -> outcome string :=
  fun n => if (n <? 2)%nat then Raise rate_limit_error else Ret "ok".

Definition always_denied : nat -> outcome string :=
  fun _ => Raise permission_error.

Definition image_response : response :=
  Response [[Part (Some (Blob "image/png" [Byte.x89; Byte.x50; Byte.x4e; Byte.x47]))]].

(** A successful answer that carries text only: no image part. *)
Definition text_only_response : response := Response [[Part None]].

Definition pending_operation : operation :=
  Operation "operations/1" false None.

(** Terminal, with the video inline. *)
Definition inline_operation : operation :=
  Operation "operations/1" true
    (Some (VideosResponse
             [GeneratedVideo (Video (Some (RawBytes [Byte.x00; Byte.x01])) None)])).

(** Terminal, with a storage reference only. *)
Definition reference_operation : operation :=
  Operation "operations/1" true
    (Some (VideosResponse
             [GeneratedVideo (Video None (Some "gs://bucket/clip.mp4"))])).

(** Terminal, with no response at all. *)
Definition empty_operation : operation :=
  Operation "operations/1" true None.

Definition inline_video : scenario :=
  Scenario (fun _ => inr image_response) (fun _ => inr inline_operation)
           (fun _ => inr inline_operation).

Definition reference_only : scenario :=
  Scenario (fun _ => inr image_response) (fun _ => inr reference_operation)
           (fun _ => inr reference_operation).

Definition no_video : scenario :=
  Scenario (fun _ => inr image_response) (fun _ => inr empty_operation)
           (fun _ => inr empty_operation).

Definition no_image : scenario :=
  Scenario (fun _ => inr text_only_response) (fun _ => inr inline_operation)
           (fun _ => inr inline_operation).

(** The operation is pending when submitted and at every refetch. *)
Definition never_done : scenario :=
  Scenario (fun _ => inr image_response) (fun _ => inr pending_operation)
           (fun _ => inr pending_operation).

(** The operation is pending when submitted and reported done by the
    [n]-th refetch. *)
Definition done_after (n : nat) : scenario :=
  Scenario (fun _ => inr image_response) (fun _ => inr pending_operation)
           (fun k => if (S k <? n)%nat then inr pending_operation
                     else inr inline_operation).

Definition stub_client : client :=
  Client (Some "project") "us-central1" (ServiceAccount "sa.json" []).

Definition t1 : clip_config :=
  ClipConfig "t1" "A desk" "A phone" "reach" None (Some 4) None.

End ClipStub.

(** A world for [chain_clips.py]: it records what is printed and which
    commands are run; every directory holds a [clip.mp4]; [ffmpeg] succeeds;
    [ffprobe] answers from a script indexed by the probed path. *)

Module ChainStub.
Import ChainClips.

Record world : Type := World {
  log : list notice;
  commands : list command
}.

Definition start : world := World [] [].

Definition digit_of (c : ascii) : option Z :=
  let n := nat_of_ascii c in
  if ((48 <=? n) && (n <=? 57))%nat then Some (Z.of_nat (n - 48)) else None.

(** Reads decimal digits: the number read onto [acc], how many digits, and
    the text left. *)
Fixpoint digits (s : string) (acc : Z) (count : nat) : Z * nat * string :=
  match s with
  | String c rest =>
      match digit_of c with
      | Some d => digits rest (10 * acc + d) (S count)
      | None => (acc, count, s)
      end
  | EmptyString => (acc, count, s)
  end.

Definition value_error (s : string) : exn :=
  Exn "ValueError" ("could not convert string to float: '" ++ s ++ "'").

(** The stub's [float]: exact on the plain decimal literals that [ffprobe]
    prints (an optional sign, digits, an optional fraction).  To any other
    text it answers with [ValueError]; Python does so for the two texts
    used below, ["N/A"] and the empty text. *)
Definition decimal_float (s : string) : exn + Q :=
  let (negative, body) :=
    match s with
    | String "-"%char r => (true, r)
    | String "+"%char r => (false, r)
    | _ => (false, s)
    end in
  let '(int_part, int_count, rest) := digits body 0 0 in
  let '(mantissa, frac_count, rest') :=
    match rest with
    | String "."%char r => digits r int_part 0
    | _ => (int_part, 0%nat, rest)
    end in
  match rest', (int_count + frac_count)%nat with
  | EmptyString, S _ =>
      inr (Qred ((if negative then - mantissa else mantissa)
                 # Z.to_pos (10 ^ Z.of_nat frac_count)))
  | _, _ => inl (value_error s)
  end.

(** The last argument of a command, as text. *)
Definition last_arg (cmd : command) : string :=
  match List.last cmd (Arg "") with
  | Arg s => s
  | _ => ""
  end.

Definition is_ffprobe (cmd : command) : bool :=
  match cmd with
  | Arg s :: _ => String.eqb s "ffprobe"
  | _ => false
  end.

Definition stub_services (probe_answer : string -> completed_process)
  : Services world := {|
  print n w := World (log w ++ [n]) (commands w);
  path_exists p w := true;
  glob_mp4 p w := [];
  absolute p w := "/work/" ++ p;
  write_list_file lines w := (w, inr "/tmp/list.txt");
  unlink p w := (w, inr tt);
  run cmd w :=
    (World (log w) (commands w ++ [cmd]),
     inr (if is_ffprobe cmd then probe_answer (last_arg cmd)
          else CompletedProcess 0 "" ""));
  mkdir_parents p w := (w, inr tt);
  stat_size p w := (w, inr 2048);
  py_float := decimal_float
|}.

(** Every file measures four seconds. *)
Definition four_seconds : string -> completed_process :=
  fun _ => CompletedProcess 0 ("4.000000" ++ newline) "".



(** The world once the two clips [c1] and [c2], of four seconds each, are
    found. *)
Definition two_found : world :=
  World [ChainingClips 2; Found "c1/clip.mp4" 4; Found "c2/clip.mp4" 4]
        [ffprobe_cmd "c1/clip.mp4"; ffprobe_cmd "c2/clip.mp4"].

(** And once the output is announced and its directory made. *)
Definition two_ready : world :=
  World [ChainingClips 2; Found "c1/clip.mp4" 4; Found "c2/clip.mp4" 4;
         TotalInputDuration 8; OutputIs "out/final.mp4"]
        [ffprobe_cmd "c1/clip.mp4"; ffprobe_cmd "c2/clip.mp4"].

End ChainStub.

(** A world made of counters only: how often the wrapped operation was
    invoked, how often and how long the process slept. *)

Module Counters.
Import CreateClip.

Record world : Type := World {
  invoked : nat;
  naps : nat;
  slept : Q
}.

Definition start : world := World 0 0 0.

(** The jitter drawn is always [2], the largest there is. *)
#[export] Instance counting_runtime : Runtime world := {
  print n w := w;
  sleep d w := World (invoked w) (S (naps w)) (slept w + d);
  random_uniform a b w := (w, 2%Q)
}.

(** An operation whose [n]-th invocation ends as [script n]. *)
Definition scripted {A} (script : nat -> outcome A) : M world A :=
  fun w => (World (S (invoked w)) (naps w) (slept w), script (invoked w)).

Definition quota_error : exn :=
  Exn "ClientError" "429 RESOURCE_EXHAUSTED".

Definition always_limited : nat -> outcome string :=
  fun _ => Raise quota_error.

Definition always_exits : nat -> outcome string :=
  fun _ => SysExit 1.

(** Rate limited on the first [k] invocations, then a result. *)
Definition limited_times (k : nat) : nat -> outcome string :=
  fun n => if (n <? k)%nat then Raise quota_error else Ret "ok".

(** An operation whose limit clears with time: it is rate limited as long
    as the process has slept less than ten seconds. *)
Definition limited_for_ten_seconds : M world string :=
  fun w =>
    (World (S (invoked w)) (naps w) (slept w),
     if Qle_bool 10 (slept w) then Ret "ok" else Raise quota_error).

End Counters.

(** ** create_clip.py: the [config] dictionary and [main] *)

Module CreateClipMain.
Import CreateClip.

(** A [config] dictionary whose values have the types [create_clip] works
    with; each of the seven keys may be missing. *)
Record config_dict : Type := ConfigDict {
  d_clip_id : option string;
  d_start_prompt : option string;
  d_end_prompt : option string;
  d_transition_prompt : option string;
  d_aspect_ratio : option string;
  d_duration : option Z;
  d_output_dir : option string
}.

(** [KeyError(key)]; its [str] is the [repr] of the key. *)
Definition key_error (key : string) : exn :=
  Exn "KeyError" ("'" ++ key ++ "'").

(** The [argparse] namespace of [main].  [--aspect], [--duration],
    [--output-dir] and [--max-retries] have defaults, the others are
    [None] when not given. *)
Record arguments : Type := Arguments {
  a_config : option string;
  a_clip_id : option string;
  a_start_prompt : option string;
  a_end_prompt : option string;
  a_transition_prompt : option string;
  a_aspect : string;
  a_duration : Z;
  a_output_dir : string;
  a_max_retries : Z
}.

(** The directory of a clip: [output_dir / clip_id], with [output] as the
    default. *)
Definition clip_dir_of (config : clip_config) : string :=
  path_join (get_default (cfg_output_dir config) "output")
    (cfg_clip_id config).

Inductive main_notice : Type :=
| Help
| ExampleConfig
| Result (r : clip_result).

Class MainServices (W : Type) : Type := {
  (** [with open(path, "r") as f: json.load(f)] *)
  json_load : string -> W -> W * (exn + config_dict);
  (** [parser.print_help()] and the two [print]s of [main] *)
  print_main : main_notice -> W -> W
}.

Section Main.
Context {W : Type} {RT : Runtime W} {SV : Services W} {MS : MainServices W}.

(** [create_clip] on a dictionary: the four lookups [config[...]] of lines
    235-238, each a [KeyError] when the key is missing, then the function
    as modelled on the record. *)
Definition create_clip_from_dict (MAX_RETRIES : Z) (fuel : nat)
  (config : config_dict) : M W clip_result :=
  match d_clip_id config with
  | None => raise (key_error "clip_id")
  | Some clip_id =>
  match d_start_prompt config with
  | None => raise (key_error "start_prompt")
  | Some start_prompt =>
  match d_end_prompt config with
  | None => raise (key_error "end_prompt")
  | Some end_prompt =>
  match d_transition_prompt config with
  | None => raise (key_error "transition_prompt")
  | Some transition_prompt =>
      create_clip MAX_RETRIES fuel
        (ClipConfig clip_id start_prompt end_prompt transition_prompt
           (d_aspect_ratio config) (d_duration config) (d_output_dir config))
  end end end end.

(** The dictionary [main] builds from the command line. *)
Definition config_of_arguments (args : arguments)
  (clip_id start_prompt end_prompt transition_prompt : string) : config_dict :=
  ConfigDict (Some clip_id) (Some start_prompt) (Some end_prompt)
    (Some transition_prompt) (Some (a_aspect args)) (Some (a_duration args))
    (Some (a_output_dir args)).

(** [main], from the parsed arguments on.  The assignment to the global
    [MAX_RETRIES] is the cap the generation functions then run with. *)
Definition main (fuel : nat) (args : arguments) : M W unit :=
  let MAX_RETRIES := a_max_retries args in
  let run config :=
    result <- create_clip_from_dict MAX_RETRIES fuel config ;;
    effect (print_main (Result result)) in
  if negb (falsy (a_config args)) then
    config <- call (json_load (get_default (a_config args) "")) ;;
    run config
  else if negb (falsy (a_clip_id args)) && negb (falsy (a_start_prompt args))
          && negb (falsy (a_end_prompt args))
          && negb (falsy (a_transition_prompt args)) then
    run (config_of_arguments args
           (get_default (a_clip_id args) "")
           (get_default (a_start_prompt args) "")
           (get_default (a_end_prompt args) "")
           (get_default (a_transition_prompt args) ""))
  else
    effect (print_main Help) ;;;
    effect (print_main ExampleConfig) ;;;
    sys_exit 1.
End Main.

End CreateClipMain.

(** The stub of [ClipStub] with an environment of its own, and the
    services of [main] on the same world: the configuration file holds
    [file], what [main] prints is not recorded. *)

Module ClipStubMain.
Import CreateClip CreateClipMain ClipStub.

Definition stub_services_with_environment
  (environment : string -> option string) (sc : scenario) : Services world := {|
  environ_get name w := environment name;
  from_service_account_file := @from_service_account_file _ (stub_services sc);
  CreateClip.mkdir_parents := @CreateClip.mkdir_parents _ (stub_services sc);
  generate_content := @generate_content _ (stub_services sc);
  write_bytes := @write_bytes _ (stub_services sc);
  read_bytes := @read_bytes _ (stub_services sc);
  image_from_file := @image_from_file _ (stub_services sc);
  generate_videos := @generate_videos _ (stub_services sc);
  operations_get := @operations_get _ (stub_services sc);
  b64decode := @b64decode _ (stub_services sc)
|}.

(** Only the project is set. *)
Definition project_only : string -> option string :=
  fun name => if String.eqb name "VERTEX_AI_PROJECT_ID" then Some "project"
              else None.

Definition stub_main (file : exn + config_dict) : MainServices world := {|
  json_load path w := (w, file);
  print_main n w := w
|}.

(** A dictionary without [end_prompt]. *)
Definition no_end_prompt : config_dict :=
  ConfigDict (Some "t1") (Some "A desk") None (Some "reach") None None None.

Definition t1_dict : config_dict :=
  ConfigDict (Some "t1") (Some "A desk") (Some "A phone") (Some "reach")
    None (Some 4) None.

(** [--clip-id t1 --start "A desk" --transition reach]: no [--end]. *)
Definition incomplete_arguments : arguments :=
  Arguments None (Some "t1") (Some "A desk") None (Some "reach")
    "9:16" 4 "output" 8.

(** [config.json --clip-id other --duration 8 --output-dir elsewhere]. *)
Definition file_and_flags : arguments :=
  Arguments (Some "config.json") (Some "other") None None None
    "16:9" 8 "elsewhere" 8.

(** [config.json] alone. *)
Definition file_only : arguments :=
  Arguments (Some "config.json") None None None None "9:16" 4 "output" 8.

(** A first candidate with text, then two images. *)
Definition text_then_images : response :=
  Response [[Part None;
             Part (Some (Blob "text/plain" [Byte.x41]));
             Part (Some (Blob "image/png" [Byte.x01; Byte.x02; Byte.x03]));
             Part (Some (Blob "image/jpeg" [Byte.x04]))]].

Definition images_after_text : scenario :=
  Scenario (fun _ => inr text_then_images) (fun _ => inr inline_operation)
           (fun _ => inr inline_operation).

(** A successful answer without candidates. *)
Definition no_candidates : scenario :=
  Scenario (fun _ => inr (Response [])) (fun _ => inr inline_operation)
           (fun _ => inr inline_operation).

(** Terminal, with both the bytes and a reference. *)
Definition bytes_and_reference : operation :=
  Operation "operations/1" true
    (Some (VideosResponse
             [GeneratedVideo
                (Video (Some (RawBytes [Byte.x00; Byte.x01]))
                       (Some "gs://bucket/clip.mp4"))])).

End ClipStubMain.

(** ** chain_clips.py: [check_ffmpeg] and [main] *)

Module ChainClipsMain.
Import ChainClips.

(** The [argparse] namespace of [main]: at least one clip directory
    ([nargs="+"]), the output, [--crossfade] (default 0) and
    [--reencode]. *)
Record arguments : Type := Arguments {
  a_clips : list string;
  a_output : string;
  a_crossfade : Q;
  a_reencode : bool
}.

Inductive main_notice : Type :=
| ErrorFfmpegNotWorking
| ErrorFfmpegNotFound
| ErrorNeedTwoClips
| WarningFirstThree.

Class MainServices (W : Type) : Type := {
  print_main : main_notice -> W -> W
}.

(** The files a command names as inputs: every argument that follows an
    [-i]. *)
Fixpoint inputs_of (cmd : command) : list string :=
  match cmd with
  | Arg s :: ((Arg v :: rest) as tail) =>
      if String.eqb s "-i" then v :: inputs_of rest else inputs_of tail
  | _ :: tail => inputs_of tail
  | [] => []
  end.

(** The fade lengths of the transitions a command asks for. *)
Definition xfade_durations (cmd : command) : list Q :=
  flat_map (fun a => match a with
                     | XfadeFilter chain => map xf_duration chain
                     | _ => []
                     end) cmd.

Section Main.
Context {W : Type} {SV : Services W} {MS : MainServices W}.

Definition ffmpeg_version_cmd : command := [Arg "ffmpeg"; Arg "-version"].

(** [except FileNotFoundError]: by the class of the exception. *)
Definition is_file_not_found (e : exn) : bool :=
  String.eqb (exn_type e) "FileNotFoundError".

Definition check_ffmpeg : M W unit :=
  fun w =>
    match run ffmpeg_version_cmd w with
    | (w1, inr result) =>
        if negb (returncode result =? 0) then
          (effect (print_main ErrorFfmpegNotWorking) ;;; sys_exit 1) w1
        else (w1, Ret tt)
    | (w1, inl e) =>
        if is_file_not_found e then
          (effect (print_main ErrorFfmpegNotFound) ;;; sys_exit 1) w1
        else (w1, Raise e)
    end.

(** [main], from the parsed arguments on. *)
Definition main (args : arguments) : M W unit :=
  if (List.length (a_clips args) <? 2)%nat then
    effect (print_main ErrorNeedTwoClips) ;;;
    sys_exit 1
  else
    clips <-
      (if (3 <? List.length (a_clips args))%nat then
         effect (print_main WarningFirstThree) ;;;
         ret (firstn 3 (a_clips args))
       else ret (a_clips args)) ;;
    check_ffmpeg ;;;
    let clip_dirs := map posix_path clips in
    let output_path := posix_path (a_output args) in
    chain_clips clip_dirs output_path (a_crossfade args) (a_reencode args) ;;;
    ret tt.
End Main.

End ChainClipsMain.

(** A second stub for [chain_clips.py], on the world of [ChainStub]: which
    paths exist, what a directory globs to, how [ffmpeg] ends and how
    [os.unlink] ends are parameters; [ffprobe] measures four seconds. *)

Module ChainStubMain.
Import ChainClips ChainClipsMain ChainStub.

Record setting : Type := Setting {
  existing : list string;
  globbed : list string;
  ffmpeg_answer : exn + completed_process;
  unlink_answer : exn + unit
}.

Definition stub_services_in (st : setting) : Services world := {|
  print n w := World (log w ++ [n]) (commands w);
  path_exists p w := existsb (String.eqb p) (existing st);
  glob_mp4 p w := globbed st;
  absolute p w := "/work/" ++ p;
  write_list_file lines w := (w, inr "/tmp/list.txt");
  unlink p w := (World (log w) (commands w ++ [[Arg "unlink"; Arg p]]),
                 unlink_answer st);
  run cmd w :=
    (World (log w) (commands w ++ [cmd]),
     if is_ffprobe cmd then inr (four_seconds (last_arg cmd))
     else ffmpeg_answer st);
  mkdir_parents p w := (w, inr tt);
  stat_size p w := (w, inr 2048);
  py_float := decimal_float
|}.

#[export] Instance silent_main : MainServices world := {
  print_main n w := w
}.

Definition ok : exn + completed_process := inr (CompletedProcess 0 "" "").

(** [ffmpeg] exits with 1. *)
Definition failed : exn + completed_process :=
  inr (CompletedProcess 1 "" "Invalid data found when processing input").

(** There is no [ffmpeg] to run. *)
Definition not_found : exn + completed_process :=
  inl (Exn "FileNotFoundError"
         "[Errno 2] No such file or directory: 'ffmpeg'").

(** Two directories: [c1] holds [clip.mp4] and [video.mp4], [c2] only
    [video.mp4]. *)
Definition two_dirs (ffmpeg : exn + completed_process) : setting :=
  Setting ["c1"; "c2"; "c1/clip.mp4"; "c1/video.mp4"; "c2/video.mp4"] []
    ffmpeg (inr tt).

(** A directory [c3] whose only video is [take7.mp4]. *)
Definition other_name : setting :=
  Setting ["c3"] ["c3/take7.mp4"] ok (inr tt).

(** An empty directory [c4]. *)
Definition empty_dir : setting := Setting ["c4"] [] ok (inr tt).

(** Five directories, each with a [clip.mp4]. *)
Definition five_dirs : setting :=
  Setting ["a"; "b"; "c"; "d"; "e"; "a/clip.mp4"; "b/clip.mp4";
           "c/clip.mp4"; "d/clip.mp4"; "e/clip.mp4"] [] ok (inr tt).

End ChainStubMain.

(** ** generate_image.py *)

Module GenerateImage.
Import CreateClip.

Inductive notice : Type :=
| ErrorProjectNotSet
| ErrorServiceAccountNotSet
| ErrorServiceAccountFileNotFound (service_account_path : string)
| Settings (project_id service_account_path prompt output_file : string)
| Generating
| ImageSaved (output_file : string) (size : nat)
| ErrorNoImagesGenerated.

(** An entry of [response.generated_images]. *)
Record generated_image : Type := GeneratedImage { gi_image : image }.

Class Services (W : Type) : Type := {
  print : notice -> W -> W;
  (** [os.environ.get] *)
  environ_get : string -> W -> option string;
  (** [Path(p).exists()] *)
  path_exists : string -> W -> bool;
  (** [Credentials.from_service_account_file(path, scopes=scopes)] *)
  from_service_account_file :
    string -> list string -> W -> W * (exn + credentials);
  (** [client.models.generate_images(model, prompt, config)] with the
      number of images and the aspect ratio of the config; the answer is
      given by its [generated_images] *)
  generate_images :
    client -> string -> string -> nat -> string -> W ->
    W * (exn + list generated_image);
  (** [image.save(path)] *)
  save : image -> string -> W -> W * (exn + unit)
}.

Definition default_prompt : string :=
  "A modern terminal application with glowing text on a dark background, digital art style".

Definition IMAGEN_MODEL : string := "imagen-3.0-generate-002".

Section Main.
Context {W : Type} {SV : Services W}.

(** [main]; [argv] is [sys.argv], the script's name first. *)
Definition main (argv : list string) : M W unit :=
  fun w =>
    let project_id := environ_get "VERTEX_AI_PROJECT_ID" w in
    let service_account_path :=
      environ_get "VERTEX_AI_SERVICE_ACCOUNT_JSON" w in
    if falsy project_id then
      (effect (print ErrorProjectNotSet) ;;; sys_exit 1) w
    else if falsy service_account_path then
      (effect (print ErrorServiceAccountNotSet) ;;; sys_exit 1) w
    else
      let project := get_default project_id "" in
      let account := get_default service_account_path "" in
      if negb (path_exists account w) then
        (effect (print (ErrorServiceAccountFileNotFound account)) ;;;
         sys_exit 1) w
      else
        let prompt := nth 1 argv default_prompt in
        let output_file := nth 2 argv "output_image.png" in
        (effect (print (Settings project account prompt output_file)) ;;;
         credentials <- call (from_service_account_file account scopes) ;;
         let cl := Client (Some project) "us-central1" credentials in
         effect (print Generating) ;;;
         generated_images <-
           call (generate_images cl IMAGEN_MODEL prompt 1 "1:1") ;;
         match generated_images with
         | first :: _ =>
             let image_data := gi_image first in
             call (save image_data output_file) ;;;
             effect (print (ImageSaved output_file
                              (List.length (image_bytes image_data))))
         | [] =>
             effect (print ErrorNoImagesGenerated) ;;;
             sys_exit 1
         end) w.
End Main.

(** A stub: the environment and the files that exist are parameters, the
    service answers with [answer], saved files are recorded. *)
Record world : Type := World {
  log : list notice;
  requests : list string;
  saved : list (string * image)
}.

Definition start : world := World [] [] [].

Definition stub_services (environment : string -> option string)
  (files : list string) (answer : exn + list generated_image)
  : Services world := {|
  print n w := World (log w ++ [n]) (requests w) (saved w);
  environ_get name w := environment name;
  path_exists p w := existsb (String.eqb p) files;
  from_service_account_file p sc w := (w, inr (ServiceAccount p sc));
  generate_images cl model prompt n aspect w :=
    (World (log w) (requests w ++ [prompt]) (saved w), answer);
  save img p w := (World (log w) (requests w) (saved w ++ [(p, img)]), inr tt)
|}.

Definition configured : string -> option string :=
  fun name =>
    if String.eqb name "VERTEX_AI_PROJECT_ID" then Some "project"
    else if String.eqb name "VERTEX_AI_SERVICE_ACCOUNT_JSON" then Some "sa.json"
    else None.

Definition picture (b : Byte.byte) : generated_image :=
  GeneratedImage (Image [b] "image/png").

End GenerateImage.

(** * Properties of create_clip.py *)

Module CreateClipSpec.
Import CreateClip.

Section RetryFacts.
Context {W : Type} {RT : Runtime W} {A : Type}.
Variable func : M W A.

(** [calls] counts the invocations of [func]: any observation of the
    world that an invocation increases by one and that the wrapper's own
    effects leave alone. *)
Variable calls : W -> nat.
Hypothesis calls_func : forall w, calls (fst (func w)) = S (calls w).
Hypothesis calls_random :
  forall a b w, calls (fst (random_uniform a b w)) = calls w.
Hypothesis calls_print : forall n w, calls (print n w) = calls w.
Hypothesis calls_sleep : forall d w, calls (sleep d w) = calls w.

(** Up to attempt 1021 the product [5 * 2 ^ attempt] is a float. *)
Lemma float_of_int_in_range (attempt : nat) :
  (attempt <= 1021)%nat ->
  (Z.abs (BASE_DELAY * 2 ^ Z.of_nat attempt) <? 2 ^ 1024 - 2 ^ 970) = true.
Proof.
intros Ha. apply Z.ltb_lt. unfold BASE_DELAY.
assert (H0 : 0 <= 2 ^ Z.of_nat attempt) by (apply Z.pow_nonneg; lia).
rewrite Z.abs_eq by lia.
apply Z.le_lt_trans with (5 * 2 ^ 1021).
- apply Z.mul_le_mono_nonneg_l; [lia |]. apply Z.pow_le_mono_r; lia.
- vm_compute. reflexivity.
Qed.

(** From attempt 1022 on it is not. *)
Lemma float_of_int_out_of_range (attempt : nat) :
  (1022 <= attempt)%nat ->
  (Z.abs (BASE_DELAY * 2 ^ Z.of_nat attempt) <? 2 ^ 1024 - 2 ^ 970) = false.
Proof.
intros Ha. apply Z.ltb_ge. unfold BASE_DELAY.
assert (H0 : 0 <= 2 ^ Z.of_nat attempt) by (apply Z.pow_nonneg; lia).
rewrite Z.abs_eq by lia.
apply Z.le_trans with (5 * 2 ^ 1022).
- vm_compute. discriminate.
- apply Z.mul_le_mono_nonneg_l; [lia |]. apply Z.pow_le_mono_r; lia.
Qed.

Lemma backoff_delay_in_range attempt jitter :
  (attempt <= 1021)%nat ->
  exists delay, backoff_delay attempt jitter = inr delay.
Proof.
intros Ha. unfold backoff_delay, int_plus_float, float_of_int.
rewrite (float_of_int_in_range attempt Ha). eexists. reflexivity.
Qed.

Lemma backoff_delay_out_of_range attempt jitter :
  (1022 <= attempt)%nat ->
  backoff_delay attempt jitter = inl overflow_error.
Proof.
intros Ha. unfold backoff_delay, int_plus_float, float_of_int.
now rewrite (float_of_int_out_of_range attempt Ha).
Qed.

Lemma backoff_delay_le_max attempt jitter delay :
  backoff_delay attempt jitter = inr delay ->
  (delay <= inject_Z MAX_DELAY)%Q.
Proof.
unfold backoff_delay.
destruct (int_plus_float _ jitter) as [e | sum]; [discriminate |].
intros [= <-]. apply Q.le_min_r.
Qed.

(** Up to attempt 1021 the handler draws, prints, sleeps and lets the loop
    go on. *)
Lemma after_backoff_in_range MAX_RETRIES attempt w1 :
  (attempt <= 1021)%nat ->
  exists w2 jitter delay,
    random_uniform 0 2 w1 = (w2, jitter) /\
    backoff_delay attempt jitter = inr delay /\
    after_backoff MAX_RETRIES attempt w1 =
      (sleep delay (print (RateLimited delay (attempt + 1) MAX_RETRIES) w2),
       inr tt).
Proof.
intros Ha. unfold after_backoff.
destruct (random_uniform 0 2 w1) as [w2 jitter].
destruct (backoff_delay_in_range attempt jitter Ha) as [delay Hd].
exists w2, jitter, delay. now rewrite Hd.
Qed.

Lemma calls_after_backoff MAX_RETRIES attempt w1 :
  calls (fst (after_backoff MAX_RETRIES attempt w1)) = calls w1.
Proof.
unfold after_backoff.
pose proof (calls_random 0 2 w1) as Hr.
destruct (random_uniform 0 2 w1) as [w2 jitter]; simpl in Hr.
destruct (backoff_delay attempt jitter) as [e | delay]; simpl.
- exact Hr.
- now rewrite calls_sleep, calls_print.
Qed.

(** One iteration of the loop, by the way the attempt ends. *)
Lemma retry_loop_step MAX_RETRIES attempt rest last w :
  retry_loop MAX_RETRIES func (attempt :: rest) last w =
  match func w with
  | (w1, Raise e) =>
      if is_rate_limit e
      then match after_backoff MAX_RETRIES attempt w1 with
           | (w2, inr _) => retry_loop MAX_RETRIES func rest (Some e) w2
           | (w2, inl e') => (w2, Raise e')
           end
      else (w1, Raise e)
  | other => other
  end.
Proof.
cbn [retry_loop]. destruct (func w) as [w1 [a | e | c | ]]; reflexivity.
Qed.

(** A rate-limited attempt of index at most 1021 hands over to the next
    one. *)
Lemma retry_loop_goes_on MAX_RETRIES attempt rest last w e :
  (attempt <= 1021)%nat ->
  snd (func w) = Raise e ->
  is_rate_limit e = true ->
  retry_loop MAX_RETRIES func (attempt :: rest) last w =
  retry_loop MAX_RETRIES func rest (Some e)
    (attempt_world_from MAX_RETRIES func attempt 1 w).
Proof.
intros Ha He Ht. rewrite retry_loop_step. cbn [attempt_world_from].
destruct (func w) as [w1 o]; simpl in He; subst o. rewrite Ht. cbn [fst].
destruct (after_backoff_in_range MAX_RETRIES attempt w1 Ha)
  as [w2 [jitter [delay [_ [_ Hb]]]]].
now rewrite Hb.
Qed.

Lemma calls_next_attempt MAX_RETRIES attempt w :
  calls (attempt_world_from MAX_RETRIES func attempt 1 w) = S (calls w).
Proof.
cbn [attempt_world_from]. now rewrite calls_after_backoff, calls_func.
Qed.

Lemma retry_loop_success MAX_RETRIES (v : A) :
  forall k n a last w,
    (k < n)%nat ->
    (a + k <= 1022)%nat ->
    (forall i, (i < k)%nat ->
       exists e,
         snd (func (attempt_world_from MAX_RETRIES func a i w)) = Raise e /\
         is_rate_limit e = true) ->
    snd (func (attempt_world_from MAX_RETRIES func a k w)) = Ret v ->
    let r := retry_loop MAX_RETRIES func (seq a n) last w in
    r = func (attempt_world_from MAX_RETRIES func a k w) /\
    calls (fst r) = (calls w + k + 1)%nat.
Proof.
induction k as [| k IH]; intros n a last w Hkn Hrange Hfail Hok;
  (destruct n as [| n]; [lia |]); cbn zeta; cbn [seq].
- rewrite retry_loop_step. cbn [attempt_world_from] in Hok |- *.
  pose proof (calls_func w) as Hc.
  destruct (func w) as [w1 o]; simpl in Hok, Hc; subst o; simpl.
  split; [reflexivity | lia].
- destruct (Hfail 0%nat ltac:(lia)) as [e [He Ht]].
  cbn [attempt_world_from] in He.
  rewrite (retry_loop_goes_on MAX_RETRIES a _ last w e ltac:(lia) He Ht).
  pose proof (calls_next_attempt MAX_RETRIES a w) as Hc.
  destruct (IH n (S a) (Some e)
              (attempt_world_from MAX_RETRIES func a 1 w)) as [Hr Hn].
  + lia.
  + lia.
  + intros i Hi. apply (Hfail (S i)). lia.
  + exact Hok.
  + split; [exact Hr | lia].
Qed.

Lemma retry_loop_exhausted MAX_RETRIES :
  forall n a last w,
    (a + n <= 1022)%nat ->
    (forall i, (i < n)%nat ->
       exists e,
         snd (func (attempt_world_from MAX_RETRIES func a i w)) = Raise e /\
         is_rate_limit e = true) ->
    let r := retry_loop MAX_RETRIES func (seq a n) last w in
    calls (fst r) = (calls w + n)%nat /\
    ((n = 0%nat /\
      r = (print (MaxRetriesExceeded MAX_RETRIES last) w,
           match last with
           | Some e => Raise e
           | None => Raise raise_None_error
           end)) \/
     ((0 < n)%nat /\
      exists e,
        snd (func (attempt_world_from MAX_RETRIES func a (n - 1) w)) =
          Raise e /\
        r = (print (MaxRetriesExceeded MAX_RETRIES (Some e))
               (attempt_world_from MAX_RETRIES func a n w),
             Raise e))).
Proof.
induction n as [| n IH]; intros a last w Hrange Hfail; cbn zeta; cbn [seq].
- split.
  + destruct last; simpl; rewrite calls_print; lia.
  + left. split; [reflexivity |]. destruct last; reflexivity.
- destruct (Hfail 0%nat ltac:(lia)) as [e [He Ht]].
  cbn [attempt_world_from] in He.
  rewrite (retry_loop_goes_on MAX_RETRIES a _ last w e ltac:(lia) He Ht).
  pose proof (calls_next_attempt MAX_RETRIES a w) as Hc.
  destruct (IH (S a) (Some e)
              (attempt_world_from MAX_RETRIES func a 1 w)) as [Hn Hlast].
  + lia.
  + intros i Hi. apply (Hfail (S i)). lia.
  + split; [lia |]. right. split; [lia |].
    destruct Hlast as [[-> Hr] | [Hpos [e' [He' Hr]]]].
    * exists e. split; [exact He | exact Hr].
    * exists e'. split; [| exact Hr].
      destruct n as [| m]; [lia |].
      replace (S (S m) - 1)%nat with (S m) by lia.
      replace (S m - 1)%nat with m in He' by lia. exact He'.
Qed.

(** X31.  An operation that is rate limited on the first [k] attempts of
    the run and returns [v] on the next one, with [k < MAX_RETRIES] and [k
    <= 1022]: the wrapper ends exactly as that invocation ends, returning
    [v] after [k + 1] invocations.  The premises speak of the worlds the
    run goes through, so an operation whose limit clears as time passes is
    covered. *)
Theorem retry_returns_when_limit_clears
  (MAX_RETRIES : Z) (k : nat) (v : A) (w : W) :
  Z.of_nat k < MAX_RETRIES ->
  (k <= 1022)%nat ->
  (forall i, (i < k)%nat ->
     exists e,
       snd (func (attempt_world MAX_RETRIES func i w)) = Raise e /\
       is_rate_limit e = true) ->
  snd (func (attempt_world MAX_RETRIES func k w)) = Ret v ->
  let r := retry_on_429 MAX_RETRIES func w in
  r = func (attempt_world MAX_RETRIES func k w) /\
  snd r = Ret v /\
  calls (fst r) = (calls w + k + 1)%nat.
Proof.
intros Hk Hrange Hfail Hok. cbn zeta. unfold retry_on_429.
destruct (retry_loop_success MAX_RETRIES v k (Z.to_nat MAX_RETRIES) 0 None w)
  as [Hr Hc]; [lia | lia | exact Hfail | exact Hok |].
cbn zeta in Hr, Hc. split; [exact Hr |]. split; [| exact Hc].
unfold attempt_world in Hok. now rewrite Hr.
Qed.

(** C4, as the code has it.  An operation that is rate limited on every
    attempt of the run, with [1 <= MAX_RETRIES <= 1022]: the wrapper
    invokes it exactly [MAX_RETRIES] times and then raises the very
    exception of the last attempt. *)
Theorem retry_exhausted_reraises_last (MAX_RETRIES : Z) (w : W) :
  1 <= MAX_RETRIES <= 1022 ->
  (forall i, Z.of_nat i < MAX_RETRIES ->
     exists e,
       snd (func (attempt_world MAX_RETRIES func i w)) = Raise e /\
       is_rate_limit e = true) ->
  let r := retry_on_429 MAX_RETRIES func w in
  Z.of_nat (calls (fst r)) = Z.of_nat (calls w) + MAX_RETRIES /\
  exists e,
    snd (func (attempt_world MAX_RETRIES func (Z.to_nat MAX_RETRIES - 1) w)) =
      Raise e /\
    snd r = Raise e.
Proof.
intros Hmax Hfail. cbn zeta. unfold retry_on_429.
destruct (retry_loop_exhausted MAX_RETRIES (Z.to_nat MAX_RETRIES) 0 None w)
  as [Hc Hlast]; [lia | intros i Hi; apply Hfail; lia |].
cbn zeta in Hc, Hlast. split; [lia |].
destruct Hlast as [[H0 _] | [_ [e [He Hr]]]]; [lia |].
exists e. split; [exact He | now rewrite Hr].
Qed.

(** C6.  An operation whose first invocation raises an error that is not a
    rate-limit signal, with [MAX_RETRIES >= 1]: the wrapper ends exactly as
    that one invocation did, with the same exception and in the world the
    invocation left (nothing drawn, printed or slept), after one
    invocation. *)
Theorem retry_propagates_other_errors
  (MAX_RETRIES : Z) (w w1 : W) (e : exn) :
  1 <= MAX_RETRIES ->
  func w = (w1, Raise e) ->
  is_rate_limit e = false ->
  retry_on_429 MAX_RETRIES func w = (w1, Raise e) /\
  calls (fst (retry_on_429 MAX_RETRIES func w)) = S (calls w).
Proof.
intros Hmax Hf Ht. unfold retry_on_429.
destruct (Z.to_nat MAX_RETRIES) as [| n] eqn:Hn; [lia |].
cbn [seq]. rewrite retry_loop_step, Hf, Ht.
split; [reflexivity |]. simpl. pose proof (calls_func w) as Hc.
now rewrite Hf in Hc.
Qed.

(** The attempt of index 1022, when rate limited, ends the wrapper with
    the [OverflowError] of its delay, in the world the draw of the jitter
    left: nothing is printed or slept and no further attempt is made. *)
Lemma retry_loop_overflows MAX_RETRIES attempt rest last w w1 e :
  (1022 <= attempt)%nat ->
  func w = (w1, Raise e) ->
  is_rate_limit e = true ->
  retry_loop MAX_RETRIES func (attempt :: rest) last w =
    (fst (random_uniform 0 2 w1), Raise overflow_error).
Proof.
intros Ha Hf Ht. rewrite retry_loop_step, Hf, Ht. unfold after_backoff.
destruct (random_uniform 0 2 w1) as [w2 jitter].
now rewrite (backoff_delay_out_of_range attempt jitter Ha).
Qed.
End RetryFacts.

Section PollFacts.
Context {W : Type} {RT : Runtime W} {SV : Services W}.
Variable cl : client.

Lemma poll_loop_done fuel n op w :
  done op = true -> poll_loop fuel cl n op w = (w, Ret op).
Proof. intros Hd. destruct fuel; simpl; rewrite Hd; reflexivity. Qed.

(** One iteration: announce, sleep 15 seconds, refetch. *)
Lemma poll_loop_pending fuel n op w :
  done op = false ->
  poll_loop (S fuel) cl n op w =
  match operations_get cl op (sleep 15 (print (Waiting (n + 1)) w)) with
  | (w', inr op') => poll_loop fuel cl (n + 1) op' w'
  | (w', inl e) => (w', Raise e)
  end.
Proof.
intros Hd. simpl. rewrite Hd. unfold bind, effect, call.
destruct (operations_get cl op _) as [w' [e | op']]; reflexivity.
Qed.

Lemma poll_loop_returns_first_done :
  forall k fuel n op w w' op',
    refetched k cl n op w = Some (w', op') ->
    (forall j w'' op'', (j < k)%nat ->
        refetched j cl n op w = Some (w'', op'') -> done op'' = false) ->
    done op' = true ->
    (k <= fuel)%nat ->
    poll_loop fuel cl n op w = (w', Ret op').
Proof.
induction k as [| k IH]; intros fuel n op w w' op' Hk Hbefore Hd Hfuel.
- simpl in Hk. injection Hk as <- <-. now apply poll_loop_done.
- destruct fuel as [| fuel]; [lia |].
  assert (Hop : done op = false)
    by (apply (Hbefore 0%nat w op); [lia | reflexivity]).
  rewrite (poll_loop_pending _ _ _ _ Hop). simpl in Hk.
  destruct (operations_get cl op _) as [w1 [e | op1]] eqn:Hget;
    [discriminate |].
  apply IH; [exact Hk | | exact Hd | lia].
  intros j w'' op'' Hj Hr. apply (Hbefore (S j) w'' op''); [lia |].
  simpl. rewrite Hget. exact Hr.
Qed.

Lemma poll_loop_never_returns :
  forall fuel n op w,
    (forall k, exists w' op',
        refetched k cl n op w = Some (w', op') /\ done op' = false) ->
    snd (poll_loop fuel cl n op w) = OutOfFuel.
Proof.
induction fuel as [| fuel IH]; intros n op w Hnever;
  destruct (Hnever 0%nat) as [w0 [op0 [H0 Hd0]]];
  simpl in H0; injection H0 as <- <-.
- simpl. rewrite Hd0. reflexivity.
- rewrite (poll_loop_pending _ _ _ _ Hd0).
  destruct (Hnever 1%nat) as [w1 [op1 [H1 _]]]. simpl in H1.
  destruct (operations_get cl op _) as [w' [e | op']] eqn:Hget;
    [discriminate |].
  apply IH. intros k. destruct (Hnever (S k)) as [w2 [op2 [H2 Hd2]]].
  simpl in H2. rewrite Hget in H2. now exists w2, op2.
Qed.

(** C9.  The polling loop of [generate_video]: on a handle that is done it
    returns that handle at once; on a handle that is not done it prints,
    sleeps 15 seconds, refetches and goes on with the refetched handle;
    hence it returns the first handle of the refetch sequence that is done,
    after as many iterations as that takes, and when no handle of the
    sequence is ever done, no number of iterations makes it return. *)
Theorem poll_loop_unbounded (n : nat) (op : operation) (w : W) :
  (done op = true -> forall fuel, poll_loop fuel cl n op w = (w, Ret op)) /\
  (done op = false -> forall fuel,
     poll_loop (S fuel) cl n op w =
     match operations_get cl op (sleep 15 (print (Waiting (n + 1)) w)) with
     | (w', inr op') => poll_loop fuel cl (n + 1) op' w'
     | (w', inl e) => (w', Raise e)
     end) /\
  (forall k w' op',
     refetched k cl n op w = Some (w', op') ->
     (forall j w'' op'', (j < k)%nat ->
         refetched j cl n op w = Some (w'', op'') -> done op'' = false) ->
     done op' = true ->
     forall fuel, (k <= fuel)%nat ->
                  poll_loop fuel cl n op w = (w', Ret op')) /\
  ((forall k, exists w' op',
       refetched k cl n op w = Some (w', op') /\ done op' = false) ->
   forall fuel, snd (poll_loop fuel cl n op w) = OutOfFuel).
Proof.
repeat split.
- intros Hd fuel. now apply poll_loop_done.
- intros Hd fuel. now apply poll_loop_pending.
- intros k w' op' Hk Hbefore Hd fuel Hfuel.
  now apply (poll_loop_returns_first_done k).
- intros Hnever fuel. now apply poll_loop_never_returns.
Qed.
End PollFacts.

Import ClipStub.
#[local] Existing Instance Counters.counting_runtime.

Lemma retry_returns_when_limit_clears_witness :
  let r := retry_on_429 8 Counters.limited_for_ten_seconds Counters.start in
  r = Counters.limited_for_ten_seconds
        (attempt_world 8 Counters.limited_for_ten_seconds 2 Counters.start) /\
  snd r = Ret "ok" /\
  Counters.invoked (fst r) = (Counters.invoked Counters.start + 2 + 1)%nat.
Proof.
apply (@retry_returns_when_limit_clears Counters.world
         Counters.counting_runtime string Counters.limited_for_ten_seconds
         Counters.invoked (fun w => eq_refl) (fun a b w => eq_refl)
         (fun n w => eq_refl) (fun d w => eq_refl) 8 2 "ok" Counters.start).
- lia.
- lia.
- intros i Hi. exists Counters.quota_error.
  destruct i as [| [| i]]; [| | lia]; split; vm_compute; reflexivity.
- vm_compute. reflexivity.
Defined.

Lemma retry_exhausted_reraises_last_witness :
  let r := retry_on_429 3 (scripted always_rate_limited) start in
  Z.of_nat (image_requests (fst r)) = Z.of_nat (image_requests start) + 3 /\
  exists e,
    snd (scripted always_rate_limited
           (attempt_world 3 (scripted always_rate_limited)
              (Z.to_nat 3 - 1) start)) = Raise e /\
    snd r = Raise e.
Proof.
apply (@retry_exhausted_reraises_last world stub_runtime string
         (scripted always_rate_limited)
         image_requests (fun w => eq_refl) (fun a b w => eq_refl)
         (fun n w => eq_refl) (fun d w => eq_refl) 3 start).
- lia.
- intros i Hi. exists rate_limit_error. split; reflexivity.
Defined.

(** C4, as the claim states it, fails: after three rate-limited invocations
    the wrapper raises the operation's own exception, which is not an error
    raised from (wrapping) that exception. *)
Lemma retry_exhausted_error_is_not_a_wrapper :
  let r := retry_on_429 3 (scripted always_rate_limited) start in
  image_requests (fst r) = 3%nat /\
  snd r = Raise rate_limit_error /\
  ~ (exists wrapper,
        snd r = Raise wrapper /\ exn_cause wrapper = Some rate_limit_error).
Proof.
cbn zeta. split; [vm_compute; reflexivity |].
split; [vm_compute; reflexivity |].
intros [wrapper [Hr Hc]]. vm_compute in Hr.
injection Hr as <-. discriminate Hc.
Qed.

(** C5, on the code.  With [--max-retries 1100], an operation that is rate
    limited on its first 1023 invocations and would return ["ok"] on the
    next one (so [k = 1023 < 1100]) is invoked 1023 times only: the delay
    of the attempt of index 1022 cannot be computed, and the wrapper ends
    with [OverflowError] instead of returning ["ok"] after 1024
    invocations.  One failure fewer, and it returns after 1023
    invocations. *)
Theorem retry_overflows_before_late_success :
  let late := Counters.scripted (Counters.limited_times 1023) in
  let r := retry_on_429 1100 late Counters.start in
  let r' := retry_on_429 1100 (Counters.scripted (Counters.limited_times 1022))
              Counters.start in
  Counters.limited_times 1023 1023 = Ret "ok" /\
  snd r = Raise overflow_error /\
  Counters.invoked (fst r) = 1023%nat /\
  snd r' = Ret "ok" /\
  Counters.invoked (fst r') = 1023%nat.
Proof.
cbn zeta. repeat split; vm_compute; reflexivity.
Qed.

Lemma retry_propagates_other_errors_witness :
  retry_on_429 MAX_RETRIES_default (scripted always_denied) start =
    (World [] 1 0 0, Raise permission_error) /\
  image_requests
    (fst (retry_on_429 MAX_RETRIES_default (scripted always_denied) start)) =
    1%nat.
Proof.
apply (@retry_propagates_other_errors world stub_runtime string
         (scripted always_denied)
         image_requests (fun w => eq_refl) MAX_RETRIES_default start
         (World [] 1 0 0) permission_error).
- unfold MAX_RETRIES_default. lia.
- reflexivity.
- reflexivity.
Defined.

(** C7, on the code.  The docstring of [retry_on_429] gives the delay as
    [min(base * 2^attempt + jitter, max)], which is [MAX_DELAY] from
    attempt 5 on.  Up to attempt 1021 the code computes it; from attempt
    1022 on, whatever the jitter, [5 * 2 ** attempt] is too large to convert
    to a float and no delay is computed: with [--max-retries 1023] and an
    operation that is always rate limited, the wrapper ends with
    [OverflowError] after 1023 invocations and 1022 sleeps. *)
Theorem backoff_delay_overflows_at_attempt_1022 :
  let r := retry_on_429 1023 (Counters.scripted Counters.always_limited)
             Counters.start in
  backoff_delay 1021 2 = inr (inject_Z MAX_DELAY) /\
  (forall jitter later,
      backoff_delay (1022 + later) jitter = inl overflow_error) /\
  snd r = Raise overflow_error /\
  Counters.invoked (fst r) = 1023%nat /\
  Counters.naps (fst r) = 1022%nat.
Proof.
cbn zeta. split; [vm_compute; reflexivity |].
split; [intros jitter later; apply backoff_delay_out_of_range; lia |].
repeat split; vm_compute; reflexivity.
Qed.

Lemma never_done_refetched (k n : nat) (w : world) :
  exists w',
    @refetched world stub_runtime (stub_services never_done) k stub_client n
      pending_operation w = Some (w', pending_operation).
Proof.
revert n w. induction k as [| k IH]; intros n w.
- now exists w.
- simpl. apply IH.
Qed.

Lemma poll_loop_unbounded_witness :
  @poll_loop world stub_runtime (stub_services (done_after 2)) 5 stub_client 0
    pending_operation start =
    (World [Printed (Waiting 1); Slept 15; Printed (Waiting 2); Slept 15]
       0 0 2,
     Ret inline_operation) /\
  (forall fuel,
      snd (@poll_loop world stub_runtime (stub_services never_done) fuel
             stub_client 0 pending_operation start) = OutOfFuel).
Proof.
destruct (@poll_loop_unbounded world stub_runtime
            (stub_services (done_after 2)) stub_client 0 pending_operation
            start) as [_ [_ [Hreturns _]]].
destruct (@poll_loop_unbounded world stub_runtime
            (stub_services never_done) stub_client 0 pending_operation
            start) as [_ [_ [_ Hnever]]].
split.
- apply (Hreturns 2%nat); [reflexivity | | reflexivity | lia].
  intros j w'' op'' Hj Hr.
  destruct j as [| [| j]]; [| | lia]; simpl in Hr; injection Hr as <- <-;
    reflexivity.
- apply Hnever. intros k.
  destruct (never_done_refetched k 0 start) as [w' Hk].
  exists w', pending_operation. split; [exact Hk | reflexivity].
Defined.

(** The loop has no cap: for every [n >= 1] there is a service on which it
    refetches exactly [n] times before it returns. *)
Lemma poll_loop_runs_any_number_of_iterations :
  forall d fuel count w,
    (S d <= fuel)%nat ->
    let n := (polls w + S d)%nat in
    let r := @poll_loop world stub_runtime (stub_services (done_after n))
               fuel stub_client count pending_operation w in
    snd r = Ret inline_operation /\ polls (fst r) = n.
Proof.
induction d as [| d IH]; intros fuel count w Hfuel n r; subst r;
  (destruct fuel as [| fuel]; [lia |]);
  rewrite (poll_loop_pending stub_client fuel count pending_operation w
             eq_refl);
  cbn [operations_get stub_services];
  cbn [polls sleep print stub_runtime record poll_answer done_after].
- replace (S (polls w) <? n)%nat with false
    by (symmetry; apply Nat.ltb_ge; subst n; lia).
  rewrite poll_loop_done by reflexivity. simpl. subst n. split; [reflexivity | lia].
- replace (S (polls w) <? n)%nat with true
    by (symmetry; apply Nat.ltb_lt; subst n; lia).
  match goal with
  | |- context [poll_loop fuel stub_client ?c pending_operation ?w'] =>
      pose proof (IH fuel c w' ltac:(lia)) as H
  end.
  cbn zeta in H. cbn [polls] in H.
  replace (S (polls w) + S d)%nat with n in H by (subst n; lia).
  exact H.
Qed.

Section PipelineFacts.
Context {W : Type} {RT : Runtime W} {SV : Services W}.
Variable MAX_RETRIES : Z.

(** Takes a run of [bind]s apart, one computation at a time. *)
Ltac step_bind :=
  match goal with
  | H : context [bind ?m _ ?w] |- _ =>
      unfold bind at 1 in H;
      let o := fresh "o" in
      let w' := fresh "w" in
      destruct (m w) as [w' [? | ? | ? | ]]; simpl in H; try discriminate H
  end.

(** The dictionary that [create_clip] returns always names the video file:
    [video_path] is bound to [clip_dir / "clip.mp4"] before [generate_video]
    is called and is never bound again, so the [else None] of the last
    line is never taken. *)
Lemma create_clip_video_is_never_None fuel config w result :
  snd (create_clip MAX_RETRIES fuel config w) = Ret result ->
  res_video result =
    Some (path_join
            (path_join (get_default (cfg_output_dir config) "output")
               (cfg_clip_id config))
            "clip.mp4").
Proof.
unfold create_clip. intros H.
repeat step_bind.
unfold ret in H. simpl in H. injection H as <-. reflexivity.
Qed.

(** A successful image answer whose first candidate has no image part:
    [generate_image] prints the error and ends the process with status 1
    after that one request; the [SystemExit] passes through the retry
    wrapper. *)
Lemma generate_image_without_image_part
  cl prompt aspect_ratio output_path w w1 r parts others :
  1 <= MAX_RETRIES ->
  generate_content cl IMAGE_MODEL [Text prompt] aspect_ratio
    (print (GeneratingImage (path_name output_path) (first80 prompt)) w) =
    (w1, inr r) ->
  candidates r = parts :: others ->
  forallb (fun p => negb (is_image_part p)) parts = true ->
  generate_image MAX_RETRIES cl prompt aspect_ratio output_path w =
    (print ErrorNoImageInResponse w1, SysExit 1).
Proof.
intros Hmax Hgen Hcand Hparts.
unfold generate_image, retry_on_429.
destruct (Z.to_nat MAX_RETRIES) as [| n] eqn:Hn; [lia |].
cbn [seq]. rewrite retry_loop_step.
assert (Hbody : generate_image_wrapped cl prompt aspect_ratio output_path w =
                (print ErrorNoImageInResponse w1, SysExit 1)).
{ unfold generate_image_wrapped, bind, effect, call. rewrite Hgen.
  unfold first_candidate_parts. rewrite Hcand. unfold ret.
  clear Hgen Hcand. induction parts as [| p parts IH]; [reflexivity |].
  simpl in Hparts. apply andb_prop in Hparts as [Hp Hrest].
  unfold is_image_part in Hp. simpl.
  destruct (inline_data p) as [b |]; [| now apply IH].
  destruct (String.prefix "image/" (mime_type b)); [discriminate |].
  now apply IH. }
rewrite Hbody. reflexivity.
Qed.
(** A terminal operation without a response, or with an empty list of
    videos: [generate_video] prints its error and returns [None]; it does
    not end the process as the image functions do. *)
Lemma extract_video_without_artifact op output_path w :
  op_response op = None \/
  op_response op = Some (VideosResponse []) ->
  extract_video op output_path w = (print ErrorNoVideoGenerated w, Ret None).
Proof.
intros [H | H]; unfold extract_video; rewrite H; reflexivity.
Qed.

(** A terminal operation whose first video has a reference and no bytes:
    the reference is printed and [None] is returned. *)
Lemma extract_video_reference_only op result gv others u output_path w :
  op_response op = Some result ->
  generated_videos result = gv :: others ->
  payload_truthy (video_bytes (gv_video gv)) = false ->
  uri (gv_video gv) = Some u ->
  u <> "" ->
  extract_video op output_path w =
    (print NoteDownloadManually (print (VideoAtGCS u) w), Ret None).
Proof.
intros Hr Hg Hb Hu Hne. unfold extract_video.
rewrite Hr, Hg, Hb, Hu.
destruct u as [| c u]; [contradiction |]. reflexivity.
Qed.
End PipelineFacts.

(** C2 at a service that reports a storage reference only.  The run ends
    normally and prints the reference, but the dictionary it returns names
    [output/t1/clip.mp4] as the video, a file that was never written. *)
Theorem create_clip_reference_only_names_a_video :
  let r := @create_clip world stub_runtime (stub_services reference_only)
             MAX_RETRIES_default 0 t1 start in
  snd r = Ret (ClipResult "t1" "output/t1/start.png" "output/t1/end.png"
                 (Some "output/t1/clip.mp4")) /\
  res_video (ClipResult "t1" "output/t1/start.png" "output/t1/end.png"
               (Some "output/t1/clip.mp4")) <> None /\
  exists before,
    log (fst r) =
      (before ++ [Printed (VideoAtGCS "gs://bucket/clip.mp4");
                  Printed NoteDownloadManually;
                  Printed (ClipComplete "t1")])%list.
Proof.
cbn zeta. split; [reflexivity |]. split; [discriminate |].
eexists. vm_compute. rewrite <- (firstn_skipn 9) at 1. reflexivity.
Qed.

(** C3 at a service whose video operation ends with no response at all.
    [generate_video] prints its error and returns; [create_clip] goes on,
    announces the clip as complete and returns a dictionary that names a
    video file.  One video request was sent. *)
Theorem create_clip_without_video_completes :
  let r := @create_clip world stub_runtime (stub_services no_video)
             MAX_RETRIES_default 0 t1 start in
  snd r = Ret (ClipResult "t1" "output/t1/start.png" "output/t1/end.png"
                 (Some "output/t1/clip.mp4")) /\
  video_requests (fst r) = 1%nat /\
  exists before,
    log (fst r) =
      (before ++ [Printed ErrorNoVideoGenerated;
                  Printed (ClipComplete "t1")])%list.
Proof.
cbn zeta. split; [reflexivity |]. split; [reflexivity |].
eexists. vm_compute. rewrite <- (firstn_skipn 9) at 1. reflexivity.
Qed.

(** With the video inline the run ends normally and names the video it
    wrote. *)
Lemma create_clip_inline_video :
  let r := @create_clip world stub_runtime (stub_services inline_video)
             MAX_RETRIES_default 0 t1 start in
  snd r = Ret (ClipResult "t1" "output/t1/start.png" "output/t1/end.png"
                 (Some "output/t1/clip.mp4")) /\
  exists before,
    log (fst r) =
      (before ++ [Printed (Saved "output/t1/clip.mp4" 2);
                  Printed (ClipComplete "t1")])%list.
Proof.
cbn zeta. split; [reflexivity |].
eexists. vm_compute. rewrite <- (firstn_skipn 9) at 1. reflexivity.
Qed.

(** The image stages do abort: with an answer that has no image part the
    start-frame stage ends the process with status 1 after one request. *)
Lemma create_clip_without_image_exits :
  let r := @create_clip world stub_runtime (stub_services no_image)
             MAX_RETRIES_default 0 t1 start in
  snd r = SysExit 1 /\ image_requests (fst r) = 1%nat.
Proof. split; reflexivity. Qed.

End CreateClipSpec.

(** * Properties of chain_clips.py *)

Module ChainClipsSpec.
Import ChainClips.

Section ChainFacts.
Context {W : Type} {SV : Services W}.

Lemma positive_spec (crossfade : Q) :
  positive crossfade = true <-> (0 < crossfade)%Q.
Proof.
unfold positive. rewrite negb_true_iff. split.
- intros H. apply Qnot_le_lt. intros Hle.
  apply Qle_bool_iff in Hle. congruence.
- intros H. destruct (Qle_bool crossfade 0) eqn:Hb; [| reflexivity].
  apply Qle_bool_iff in Hb. exfalso. exact (Qlt_not_le _ _ H Hb).
Qed.

Lemma concat_selected_crossfade clip_paths output_path crossfade reencode :
  (0 < crossfade)%Q ->
  concat_selected clip_paths output_path crossfade reencode =
  concat_with_crossfade clip_paths output_path crossfade.
Proof.
intros H. apply positive_spec in H. unfold concat_selected.
now rewrite H.
Qed.

Lemma concat_selected_otherwise clip_paths output_path crossfade reencode :
  ~ (0 < crossfade)%Q ->
  concat_selected clip_paths output_path crossfade reencode =
  if reencode then concat_with_reencode clip_paths output_path
  else concat_simple clip_paths output_path.
Proof.
intros H. unfold concat_selected.
destruct (positive crossfade) eqn:Hp; [| reflexivity].
apply positive_spec in Hp. contradiction.
Qed.

(** What [chain_clips] does once the clips are found and the output
    directory is made. *)
Lemma chain_clips_after_discovery
  clip_dirs output_path crossfade reencode w w1 clip_paths total w2 :
  discover clip_dirs [] 0%Q (print (ChainingClips (List.length clip_dirs)) w) =
    (w1, Ret (clip_paths, total)) ->
  mkdir_parents (path_parent output_path)
    (print (OutputIs output_path) (print (TotalInputDuration total) w1)) =
    (w2, inr tt) ->
  chain_clips clip_dirs output_path crossfade reencode w =
  bind (concat_selected clip_paths output_path crossfade reencode)
       (fun _ => chain_report output_path) w2.
Proof.
intros Hd Hm. unfold chain_clips.
unfold bind at 1. unfold effect at 1.
unfold bind at 1. rewrite Hd.
unfold bind at 1. unfold effect at 1.
unfold bind at 1. unfold effect at 1.
unfold bind at 1. unfold call at 1. rewrite Hm. reflexivity.
Qed.

(** C8.  Once the clips are found, [chain_clips] concatenates with the
    crossfade strategy when [crossfade > 0], whatever [reencode] is; else
    with the re-encoding strategy when [reencode] is set; else with the
    concat demuxer, whose command copies the streams ([-c copy]). *)
Theorem strategy_selection
  clip_dirs output_path crossfade reencode w w1 clip_paths total w2 :
  discover clip_dirs [] 0%Q (print (ChainingClips (List.length clip_dirs)) w) =
    (w1, Ret (clip_paths, total)) ->
  mkdir_parents (path_parent output_path)
    (print (OutputIs output_path) (print (TotalInputDuration total) w1)) =
    (w2, inr tt) ->
  ((0 < crossfade)%Q ->
   chain_clips clip_dirs output_path crossfade reencode w =
   bind (concat_with_crossfade clip_paths output_path crossfade)
        (fun _ => chain_report output_path) w2) /\
  (~ (0 < crossfade)%Q -> reencode = true ->
   chain_clips clip_dirs output_path crossfade reencode w =
   bind (concat_with_reencode clip_paths output_path)
        (fun _ => chain_report output_path) w2) /\
  (~ (0 < crossfade)%Q -> reencode = false ->
   chain_clips clip_dirs output_path crossfade reencode w =
   bind (concat_simple clip_paths output_path)
        (fun _ => chain_report output_path) w2) /\
  (forall list_file,
      concat_simple_cmd list_file output_path =
      [Arg "ffmpeg"; Arg "-y"; Arg "-f"; Arg "concat"; Arg "-safe"; Arg "0";
       Arg "-i"; Arg list_file] ++ [Arg "-c"; Arg "copy"; Arg output_path])%list.
Proof.
intros Hd Hm.
pose proof (chain_clips_after_discovery clip_dirs output_path crossfade
              reencode w w1 clip_paths total w2 Hd Hm) as Hc.
repeat split.
- intros Hpos. rewrite Hc. now rewrite concat_selected_crossfade.
- intros Hneg ->. rewrite Hc. now rewrite concat_selected_otherwise.
- intros Hneg ->. rewrite Hc. now rewrite concat_selected_otherwise.
Qed.

(** The offsets written by [concat_with_crossfade] are the same for every
    fade length and every list of clips. *)
Lemma crossfade_cmd_offsets clip_paths output_path fade_duration cmd :
  crossfade_cmd clip_paths output_path fade_duration = Some cmd ->
  (List.length clip_paths = 2%nat /\ xfade_offsets cmd = [7 # 2]) \/
  (List.length clip_paths = 3%nat /\ xfade_offsets cmd = [7 # 2; 7%Q]).
Proof.
unfold crossfade_cmd.
destruct clip_paths as [| v1 [| v2 [| v3 [| v4 rest]]]]; try discriminate;
  intros [= <-]; [left | right]; split; reflexivity.
Qed.

End ChainFacts.

Import ChainStub.

Lemma strategy_selection_witness :
  @chain_clips world (stub_services four_seconds) ["c1"; "c2"]
    "out/final.mp4" (3 # 2) true start =
  bind (@concat_with_crossfade world (stub_services four_seconds)
          ["c1/clip.mp4"; "c2/clip.mp4"] "out/final.mp4" (3 # 2))
       (fun _ => @chain_report world (stub_services four_seconds)
                   "out/final.mp4")
       two_ready /\
  @chain_clips world (stub_services four_seconds) ["c1"; "c2"]
    "out/final.mp4" 0 true start =
  bind (@concat_with_reencode world (stub_services four_seconds)
          ["c1/clip.mp4"; "c2/clip.mp4"] "out/final.mp4")
       (fun _ => @chain_report world (stub_services four_seconds)
                   "out/final.mp4")
       two_ready /\
  @chain_clips world (stub_services four_seconds) ["c1"; "c2"]
    "out/final.mp4" 0 false start =
  bind (@concat_simple world (stub_services four_seconds)
          ["c1/clip.mp4"; "c2/clip.mp4"] "out/final.mp4")
       (fun _ => @chain_report world (stub_services four_seconds)
                   "out/final.mp4")
       two_ready.
Proof.
destruct (@strategy_selection world (stub_services four_seconds)
            ["c1"; "c2"] "out/final.mp4" (3 # 2) true start two_found
            ["c1/clip.mp4"; "c2/clip.mp4"] 8%Q two_ready
            eq_refl eq_refl) as [Hcross _].
destruct (@strategy_selection world (stub_services four_seconds)
            ["c1"; "c2"] "out/final.mp4" 0 true start two_found
            ["c1/clip.mp4"; "c2/clip.mp4"] 8%Q two_ready
            eq_refl eq_refl) as [_ [Hreencode _]].
destruct (@strategy_selection world (stub_services four_seconds)
            ["c1"; "c2"] "out/final.mp4" 0 false start two_found
            ["c1/clip.mp4"; "c2/clip.mp4"] 8%Q two_ready
            eq_refl eq_refl) as [_ [_ [Hsimple _]]].
split; [| split].
- apply Hcross. reflexivity.
- apply Hreencode; [discriminate | reflexivity].
- apply Hsimple; [discriminate | reflexivity].
Defined.



(** C1 at two clips that both measure 4 seconds, chained with a fade of
    1 second: the transition is placed at offset 3.5, not at
    [4 - 1 = 3]. *)
Theorem crossfade_offset_ignores_measured_duration :
  let SV := stub_services four_seconds in
  let r := @chain_clips world SV ["c1"; "c2"] "out/final.mp4" 1 false start in
  snd (@get_video_duration world SV "c1/clip.mp4" start) = Ret 4%Q /\
  snd (@get_video_duration world SV "c2/clip.mp4" start) = Ret 4%Q /\
  snd r = Ret "out/final.mp4" /\
  flat_map xfade_offsets (commands (fst r)) = [7 # 2] /\
  ~ (7 # 2 == 4 - 1)%Q.
Proof.
cbn zeta. repeat split; try reflexivity. discriminate.
Qed.

(** The same with three such clips: the fused first pair measures
    [4 + 4 - 1 = 7] seconds, the second transition is placed at offset 7,
    not at [7 - 1 = 6]. *)
Lemma crossfade_offsets_of_three_clips :
  let SV := stub_services four_seconds in
  let r := @chain_clips world SV ["c1"; "c2"; "c3"] "out/final.mp4" 1 false
             start in
  flat_map xfade_offsets (commands (fst r)) = [7 # 2; 7%Q] /\
  ~ (7 == (4 + 4 - 1) - 1)%Q.
Proof. cbn zeta. split; [reflexivity | discriminate]. Qed.

End ChainClipsSpec.

(** * Further properties of create_clip.py *)

Module CreateClipExtra.
Import CreateClip CreateClipMain CreateClipSpec.

Lemma prefix_spec (p s : string) :
  String.prefix p s = true <-> exists t, s = p ++ t.
Proof.
revert s. induction p as [| a p IH]; intros s; simpl.
- split; [intros _; now exists s | intros _; destruct s; reflexivity].
- destruct s as [| b s]; simpl.
  + split; [discriminate | intros [t Ht]; discriminate].
  + destruct (ascii_dec a b) as [-> | Hab].
    * rewrite IH. split; intros [t Ht]; exists t; [now rewrite Ht |].
      now injection Ht.
    * split; [discriminate |]. intros [t Ht]. injection Ht as Hb _.
      congruence.
Qed.

Lemma contains_spec (needle hay : string) :
  contains needle hay = true <->
  exists before after, hay = before ++ needle ++ after.
Proof.
assert (Hunfold : forall h,
           contains needle h =
           if String.prefix needle h then true
           else match h with
                | EmptyString => false
                | String _ rest => contains needle rest
                end) by (intros [| c h]; reflexivity).
induction hay as [| c hay IH]; rewrite Hunfold.
- destruct (String.prefix needle "") eqn:Hp.
  + split; [intros _ | reflexivity].
    apply prefix_spec in Hp as [t Ht]. now exists "", t.
  + split; [discriminate |]. intros [before [after H]].
    destruct before; [| discriminate]. simpl in H.
    assert (String.prefix needle "" = true)
      by (apply prefix_spec; now exists after).
    congruence.
- destruct (String.prefix needle (String c hay)) eqn:Hp.
  + split; [intros _ | reflexivity].
    apply prefix_spec in Hp as [t Ht]. now exists "", t.
  + rewrite IH. split.
    * intros [before [after H]]. exists (String c before), after.
      simpl. now rewrite H.
    * intros [before [after H]]. destruct before as [| b before].
      -- simpl in H.
         assert (String.prefix needle (String c hay) = true)
           by (apply prefix_spec; now exists after).
         congruence.
      -- injection H as _ H. now exists before, after.
Qed.

(** X5.  An exception counts as a rate-limit signal exactly when the text
    [429] or the text [RESOURCE_EXHAUSTED] occurs somewhere in [str(e)];
    its class plays no part. *)
Theorem is_rate_limit_spec (e : exn) :
  is_rate_limit e = true <->
  (exists before after, exn_str e = before ++ "429" ++ after) \/
  (exists before after, exn_str e = before ++ "RESOURCE_EXHAUSTED" ++ after).
Proof.
unfold is_rate_limit. rewrite orb_true_iff, !contains_spec. reflexivity.
Qed.

Section RetryEdges.
Context {W : Type} {RT : Runtime W} {A : Type}.
Variable func : M W A.

Lemma retry_without_attempts (MAX_RETRIES : Z) (w : W) :
  MAX_RETRIES <= 0 ->
  retry_on_429 MAX_RETRIES func w =
    (print (MaxRetriesExceeded MAX_RETRIES None) w, Raise raise_None_error).
Proof.
intros Hmax. unfold retry_on_429.
replace (Z.to_nat MAX_RETRIES) with 0%nat by lia. reflexivity.
Qed.

(** X1.  With [MAX_RETRIES <= 0] (as [--max-retries 0] sets it) the wrapper
    never invokes the operation: the loop is empty, [last_exception] is
    still [None], and [raise None] ends in a [TypeError]. *)
Theorem retry_with_nonpositive_cap (MAX_RETRIES : Z) (w : W) :
  MAX_RETRIES <= 0 ->
  retry_on_429 MAX_RETRIES func w =
    (print (MaxRetriesExceeded MAX_RETRIES None) w, Raise raise_None_error) /\
  exn_type raise_None_error = "TypeError".
Proof.
intros Hmax. split; [now apply retry_without_attempts | reflexivity].
Qed.

Lemma retry_system_exit (MAX_RETRIES : Z) (w w1 : W) (code : Z) :
  1 <= MAX_RETRIES ->
  func w = (w1, SysExit code) ->
  retry_on_429 MAX_RETRIES func w = (w1, SysExit code).
Proof.
intros Hmax Hf. unfold retry_on_429.
destruct (Z.to_nat MAX_RETRIES) as [| n] eqn:Hn; [lia |].
cbn [seq]. now rewrite retry_loop_step, Hf.
Qed.

(** X2.  [sys.exit] inside the wrapped operation is not an [Exception]:
    the wrapper neither retries nor waits, the exit passes through with
    its status after the one invocation. *)
Theorem retry_passes_system_exit (MAX_RETRIES : Z) (w w1 : W) (code : Z) :
  1 <= MAX_RETRIES ->
  func w = (w1, SysExit code) ->
  retry_on_429 MAX_RETRIES func w = (w1, SysExit code).
Proof. exact (retry_system_exit MAX_RETRIES w w1 code). Qed.

(** Invocations are counted as in [RetryFacts]. *)
Variable calls : W -> nat.
Hypothesis calls_func : forall w, calls (fst (func w)) = S (calls w).
Hypothesis calls_random :
  forall a b w, calls (fst (random_uniform a b w)) = calls w.
Hypothesis calls_print : forall n w, calls (print n w) = calls w.
Hypothesis calls_sleep : forall d w, calls (sleep d w) = calls w.

Lemma retry_loop_calls_bound MAX_RETRIES :
  forall attempts last w,
    (calls (fst (retry_loop MAX_RETRIES func attempts last w)) <=
     calls w + List.length attempts)%nat.
Proof.
induction attempts as [| a rest IH]; intros last w.
- destruct last; simpl; rewrite calls_print; lia.
- rewrite retry_loop_step. pose proof (calls_func w) as Hc.
  destruct (func w) as [w1 [v | e | c | ]]; simpl in Hc; simpl; try lia.
  destruct (is_rate_limit e); simpl; [| lia].
  pose proof (calls_after_backoff calls calls_random calls_print calls_sleep
                MAX_RETRIES a w1) as Hb.
  destruct (after_backoff MAX_RETRIES a w1) as [w2 [e' | []]];
    simpl in Hb |- *; [lia |].
  specialize (IH (Some e) w2). lia.
Qed.

(** X3.  Whatever the operation does, one call of the wrapper invokes it
    at most [MAX_RETRIES] times (never, when [MAX_RETRIES] is negative). *)
Theorem retry_invocations_bounded (MAX_RETRIES : Z) (w : W) :
  (Z.of_nat (calls (fst (retry_on_429 MAX_RETRIES func w))) <=
   Z.of_nat (calls w) + Z.max 0 MAX_RETRIES).
Proof.
unfold retry_on_429.
pose proof (retry_loop_calls_bound MAX_RETRIES
              (seq 0 (Z.to_nat MAX_RETRIES)) None w) as H.
rewrite length_seq in H. lia.
Qed.
End RetryEdges.

Section RetrySleeps.
Context {W : Type} {RT : Runtime W} {A : Type}.
Variable func : M W A.

(** [naps] counts the sleeps and [slept] adds up their lengths; the
    operation itself does not sleep. *)
Variable naps : W -> nat.
Variable slept : W -> Q.
Hypothesis naps_func : forall w, naps (fst (func w)) = naps w.
Hypothesis naps_random :
  forall a b w, naps (fst (random_uniform a b w)) = naps w.
Hypothesis naps_print : forall n w, naps (print n w) = naps w.
Hypothesis naps_sleep : forall d w, naps (sleep d w) = S (naps w).
Hypothesis slept_func : forall w, (slept (fst (func w)) == slept w)%Q.
Hypothesis slept_random :
  forall a b w, (slept (fst (random_uniform a b w)) == slept w)%Q.
Hypothesis slept_print : forall n w, (slept (print n w) == slept w)%Q.
Hypothesis slept_sleep :
  forall d w, (slept (sleep d w) == slept w + d)%Q.

Lemma after_backoff_naps MAX_RETRIES attempt w1 :
  (naps (fst (after_backoff MAX_RETRIES attempt w1)) <= S (naps w1))%nat.
Proof.
unfold after_backoff.
pose proof (naps_random 0 2 w1) as Hn.
destruct (random_uniform 0 2 w1) as [w2 jitter]; simpl in Hn.
destruct (backoff_delay attempt jitter) as [e | delay]; cbn [fst].
- lia.
- rewrite naps_sleep, naps_print, Hn. lia.
Qed.

Lemma after_backoff_naps_in_range MAX_RETRIES attempt w1 :
  (attempt <= 1021)%nat ->
  naps (fst (after_backoff MAX_RETRIES attempt w1)) = S (naps w1).
Proof.
intros Ha.
destruct (after_backoff_in_range MAX_RETRIES attempt w1 Ha)
  as [w2 [jitter [delay [Hr [_ Hb]]]]].
pose proof (naps_random 0 2 w1) as Hn. rewrite Hr in Hn; simpl in Hn.
rewrite Hb. cbn [fst]. now rewrite naps_sleep, naps_print, Hn.
Qed.

Lemma after_backoff_slept MAX_RETRIES attempt w1 :
  (slept (fst (after_backoff MAX_RETRIES attempt w1)) <= slept w1 + 120)%Q.
Proof.
unfold after_backoff.
pose proof (slept_random 0 2 w1) as Hs.
destruct (random_uniform 0 2 w1) as [w2 jitter]; simpl in Hs.
destruct (backoff_delay attempt jitter) as [e | delay] eqn:Hd; cbn [fst].
- rewrite Hs. lra.
- rewrite slept_sleep, slept_print, Hs.
  apply backoff_delay_le_max in Hd.
  unfold MAX_DELAY in Hd. change (inject_Z 120) with 120%Q in Hd. lra.
Qed.

Lemma retry_loop_sleep_bound MAX_RETRIES :
  forall attempts last w,
    let r := retry_loop MAX_RETRIES func attempts last w in
    (naps (fst r) <= naps w + List.length attempts)%nat /\
    (slept (fst r) <=
     slept w + 120 * inject_Z (Z.of_nat (List.length attempts)))%Q.
Proof.
induction attempts as [| a rest IH]; intros last w; cbn zeta.
- destruct last; simpl; rewrite naps_print, slept_print;
    change (inject_Z 0) with 0%Q; (split; [lia | lra]).
- rewrite retry_loop_step.
  pose proof (naps_func w) as Hn. pose proof (slept_func w) as Hs.
  assert (Hlen : (inject_Z (Z.of_nat (List.length (a :: rest))) ==
                  inject_Z (Z.of_nat (List.length rest)) + 1)%Q).
  { cbn [List.length]. rewrite Nat2Z.inj_succ. unfold Z.succ.
    now rewrite inject_Z_plus. }
  assert (H0 : (0 <= inject_Z (Z.of_nat (List.length rest)))%Q).
  { change 0%Q with (inject_Z 0). rewrite <- Zle_Qle. lia. }
  rewrite Hlen. cbn [List.length].
  destruct (func w) as [w1 [v | e | c | ]]; simpl in Hn, Hs; simpl;
    try (rewrite Hn, Hs; split; [lia | lra]).
  destruct (is_rate_limit e); simpl;
    [| rewrite Hn, Hs; split; [lia | lra]].
  pose proof (after_backoff_naps MAX_RETRIES a w1) as Hbn.
  pose proof (after_backoff_slept MAX_RETRIES a w1) as Hbs.
  destruct (after_backoff MAX_RETRIES a w1) as [w2 [e' | []]];
    cbn [fst snd] in Hbn, Hbs |- *; [split; [lia | lra] |].
  destruct (IH (Some e) w2) as [IHn IHs].
  split; [lia | lra].
Qed.

(** X6.  Whatever the operation does, one call of the wrapper sleeps at
    most [MAX_RETRIES] times and at most [120 * MAX_RETRIES] seconds in
    all (16 minutes with the default of 8). *)
Theorem retry_waiting_bounded (MAX_RETRIES : Z) (w : W) :
  let r := retry_on_429 MAX_RETRIES func w in
  Z.of_nat (naps (fst r)) <= Z.of_nat (naps w) + Z.max 0 MAX_RETRIES /\
  (slept (fst r) <= slept w + 120 * inject_Z (Z.max 0 MAX_RETRIES))%Q.
Proof.
cbn zeta. unfold retry_on_429.
destruct (retry_loop_sleep_bound MAX_RETRIES
            (seq 0 (Z.to_nat MAX_RETRIES)) None w) as [Hn Hs].
rewrite length_seq in Hn, Hs.
replace (Z.max 0 MAX_RETRIES) with (Z.of_nat (Z.to_nat MAX_RETRIES)) by lia.
split; [lia | exact Hs].
Qed.

(** Invocations are counted as in [RetryFacts]. *)
Variable calls : W -> nat.
Hypothesis calls_func : forall w, calls (fst (func w)) = S (calls w).
Hypothesis calls_random :
  forall a b w, calls (fst (random_uniform a b w)) = calls w.
Hypothesis calls_print : forall n w, calls (print n w) = calls w.
Hypothesis calls_sleep : forall d w, calls (sleep d w) = calls w.

Lemma retry_loop_exhausted_sleeps MAX_RETRIES :
  forall n a last w,
    (a + n <= 1022)%nat ->
    (forall i, (i < n)%nat ->
       exists e,
         snd (func (attempt_world_from MAX_RETRIES func a i w)) = Raise e /\
         is_rate_limit e = true) ->
    naps (fst (retry_loop MAX_RETRIES func (seq a n) last w)) =
    (naps w + n)%nat.
Proof.
induction n as [| n IH]; intros a last w Hrange Hfail; cbn [seq].
- destruct last; simpl; rewrite naps_print; lia.
- destruct (Hfail 0%nat ltac:(lia)) as [e [He Ht]].
  cbn [attempt_world_from] in He.
  rewrite (retry_loop_goes_on func MAX_RETRIES a _ last w e
             ltac:(lia) He Ht).
  rewrite IH; [| lia | intros i Hi; apply (Hfail (S i)); lia].
  cbn [attempt_world_from].
  rewrite after_backoff_naps_in_range by lia. rewrite naps_func. lia.
Qed.

(** The world before attempt [m + 1] is the one the handler of attempt [m]
    left. *)
Lemma attempt_world_from_last MAX_RETRIES :
  forall m a w,
    attempt_world_from MAX_RETRIES func a (S m) w =
    fst (after_backoff MAX_RETRIES (a + m)
           (fst (func (attempt_world_from MAX_RETRIES func a m w)))).
Proof.
induction m as [| m IH]; intros a w.
- cbn [attempt_world_from]. now rewrite Nat.add_0_r.
- change (attempt_world_from MAX_RETRIES func a (S (S m)) w)
    with (attempt_world_from MAX_RETRIES func (S a) (S m)
            (fst (after_backoff MAX_RETRIES a (fst (func w))))).
  rewrite IH. cbn [attempt_world_from]. now rewrite Nat.add_succ_r.
Qed.

(** X7.  When every attempt of the run is rate limited, with [1 <=
    MAX_RETRIES <= 1022], the wrapper sleeps once per attempt, the last one
    included: after the failure of the last attempt it draws a jitter,
    announces and waits out the delay, and only then prints that it gives
    up and raises, the operation having been invoked [MAX_RETRIES] times
    and not once more. *)
Theorem retry_sleeps_before_giving_up (MAX_RETRIES : Z) (w : W) :
  1 <= MAX_RETRIES <= 1022 ->
  (forall i, Z.of_nat i < MAX_RETRIES ->
     exists e,
       snd (func (attempt_world MAX_RETRIES func i w)) = Raise e /\
       is_rate_limit e = true) ->
  let r := retry_on_429 MAX_RETRIES func w in
  let last_attempt := (Z.to_nat MAX_RETRIES - 1)%nat in
  Z.of_nat (naps (fst r)) = Z.of_nat (naps w) + MAX_RETRIES /\
  Z.of_nat (calls (fst r)) = Z.of_nat (calls w) + MAX_RETRIES /\
  exists w1 e w2 jitter delay,
    func (attempt_world MAX_RETRIES func last_attempt w) = (w1, Raise e) /\
    random_uniform 0 2 w1 = (w2, jitter) /\
    backoff_delay last_attempt jitter = inr delay /\
    r = (print (MaxRetriesExceeded MAX_RETRIES (Some e))
           (sleep delay
              (print (RateLimited delay (last_attempt + 1) MAX_RETRIES) w2)),
         Raise e).
Proof.
intros Hmax Hfail. cbn zeta. unfold retry_on_429.
assert (Hrun : forall i, (i < Z.to_nat MAX_RETRIES)%nat ->
          exists e,
            snd (func (attempt_world_from MAX_RETRIES func 0 i w)) =
              Raise e /\ is_rate_limit e = true)
  by (intros i Hi; apply Hfail; lia).
split.
{ rewrite (retry_loop_exhausted_sleeps MAX_RETRIES
             (Z.to_nat MAX_RETRIES) 0 None w ltac:(lia) Hrun). lia. }
destruct (retry_loop_exhausted func calls calls_func calls_random calls_print
            calls_sleep MAX_RETRIES (Z.to_nat MAX_RETRIES) 0 None w
            ltac:(lia) Hrun) as [Hc Hlast].
cbn zeta in Hc, Hlast. split; [lia |].
destruct Hlast as [[H0 _] | [_ [e [He Hr]]]]; [lia |].
destruct (Z.to_nat MAX_RETRIES) as [| m] eqn:Hm; [lia |].
replace (S m - 1)%nat with m in * by lia.
rewrite attempt_world_from_last in Hr. cbn [Nat.add] in Hr.
unfold attempt_world.
destruct (func (attempt_world_from MAX_RETRIES func 0 m w)) as [w1 o] eqn:Hf.
simpl in He; subst o. cbn [fst] in Hr.
destruct (after_backoff_in_range MAX_RETRIES m w1 ltac:(lia))
  as [w2 [jitter [delay [Hrand [Hd Hb]]]]].
rewrite Hb in Hr. cbn [fst] in Hr.
exists w1, e, w2, jitter, delay.
split; [reflexivity |]. split; [exact Hrand |]. split; [exact Hd |].
exact Hr.
Qed.
End RetrySleeps.

Import Counters.

Lemma retry_with_nonpositive_cap_witness :
  retry_on_429 0 (scripted always_limited) start =
    (start, Raise raise_None_error) /\
  exn_type raise_None_error = "TypeError".
Proof.
apply (@retry_with_nonpositive_cap world counting_runtime string
         (scripted always_limited) 0 start).
lia.
Defined.

Lemma retry_passes_system_exit_witness :
  retry_on_429 MAX_RETRIES_default (scripted always_exits) start =
    (World 1 0 0, SysExit 1).
Proof.
apply (@retry_passes_system_exit world counting_runtime string
         (scripted always_exits) MAX_RETRIES_default start (World 1 0 0) 1).
- unfold MAX_RETRIES_default. lia.
- reflexivity.
Defined.

Lemma retry_invocations_bounded_witness :
  Z.of_nat (invoked (fst (retry_on_429 3 (scripted always_limited) start)))
  <= Z.of_nat (invoked start) + Z.max 0 3.
Proof.
apply (@retry_invocations_bounded world counting_runtime string
         (scripted always_limited) invoked (fun w => eq_refl)
         (fun a b w => eq_refl) (fun n w => eq_refl) (fun d w => eq_refl)
         3 start).
Defined.

Lemma retry_waiting_bounded_witness :
  let r := retry_on_429 3 (scripted always_limited) start in
  Z.of_nat (naps (fst r)) <= Z.of_nat (naps start) + Z.max 0 3 /\
  (slept (fst r) <= slept start + 120 * inject_Z (Z.max 0 3))%Q.
Proof.
apply (@retry_waiting_bounded world counting_runtime string
         (scripted always_limited) naps slept (fun w => eq_refl)
         (fun a b w => eq_refl) (fun n w => eq_refl) (fun d w => eq_refl)
         (fun w => Qeq_refl _) (fun a b w => Qeq_refl _)
         (fun n w => Qeq_refl _) (fun d w => Qeq_refl _) 3 start).
Defined.

Lemma retry_sleeps_before_giving_up_witness :
  let func := scripted always_limited in
  let r := retry_on_429 3 func start in
  let last_attempt := (Z.to_nat 3 - 1)%nat in
  Z.of_nat (naps (fst r)) = Z.of_nat (naps start) + 3 /\
  Z.of_nat (invoked (fst r)) = Z.of_nat (invoked start) + 3 /\
  exists w1 e w2 jitter delay,
    func (attempt_world 3 func last_attempt start) = (w1, Raise e) /\
    random_uniform 0 2 w1 = (w2, jitter) /\
    backoff_delay last_attempt jitter = inr delay /\
    r = (print (MaxRetriesExceeded 3 (Some e))
           (sleep delay (print (RateLimited delay (last_attempt + 1) 3) w2)),
         Raise e).
Proof.
apply (@retry_sleeps_before_giving_up world counting_runtime string
         (scripted always_limited) naps (fun w => eq_refl)
         (fun a b w => eq_refl) (fun n w => eq_refl) (fun d w => eq_refl)
         invoked (fun w => eq_refl) (fun a b w => eq_refl)
         (fun n w => eq_refl) (fun d w => eq_refl) 3 start).
- lia.
- intros i Hi. exists quota_error. split; reflexivity.
Defined.

Section ImageFacts.
Context {W : Type} {RT : Runtime W} {SV : Services W}.
Variable MAX_RETRIES : Z.

Lemma save_first_image_skips skipped rest output_path :
  forallb (fun p => negb (is_image_part p)) skipped = true ->
  save_first_image (skipped ++ rest) output_path =
  save_first_image rest output_path.
Proof.
induction skipped as [| p skipped IH]; intros Hs; [reflexivity |].
simpl in Hs. apply andb_prop in Hs as [Hp Hrest].
unfold is_image_part in Hp. simpl.
destruct (inline_data p) as [b |]; [| now apply IH].
destruct (String.prefix "image/" (mime_type b)); [discriminate |].
now apply IH.
Qed.

Lemma retry_returns_at_once {A} (func : M W A) w w1 v :
  1 <= MAX_RETRIES ->
  func w = (w1, Ret v) ->
  retry_on_429 MAX_RETRIES func w = (w1, Ret v).
Proof.
intros Hmax Hf. unfold retry_on_429.
destruct (Z.to_nat MAX_RETRIES) as [| n] eqn:Hn; [lia |].
cbn [seq]. now rewrite retry_loop_step, Hf.
Qed.

Lemma retry_raises_at_once {A} (func : M W A) w w1 e :
  1 <= MAX_RETRIES ->
  func w = (w1, Raise e) ->
  is_rate_limit e = false ->
  retry_on_429 MAX_RETRIES func w = (w1, Raise e).
Proof.
intros Hmax Hf He. unfold retry_on_429.
destruct (Z.to_nat MAX_RETRIES) as [| n] eqn:Hn; [lia |].
cbn [seq]. now rewrite retry_loop_step, Hf, He.
Qed.

(** X8.  [generate_image] saves the first part of the first candidate
    that carries inline data of an [image/...] type: parts before it are
    skipped, parts after it are not looked at, and the path given is
    returned after the one request. *)
Theorem generate_image_saves_first_image_part
  cl prompt aspect_ratio output_path w w1 w2 r skipped p later others b :
  1 <= MAX_RETRIES ->
  generate_content cl IMAGE_MODEL [Text prompt] aspect_ratio
    (print (GeneratingImage (path_name output_path) (first80 prompt)) w) =
    (w1, inr r) ->
  candidates r = (skipped ++ p :: later)%list :: others ->
  forallb (fun q => negb (is_image_part q)) skipped = true ->
  inline_data p = Some b ->
  String.prefix "image/" (mime_type b) = true ->
  write_bytes output_path (data b) w1 = (w2, inr tt) ->
  generate_image MAX_RETRIES cl prompt aspect_ratio output_path w =
    (print (Saved output_path (List.length (data b))) w2, Ret output_path).
Proof.
intros Hmax Hgen Hcand Hskip Hp Himg Hwrite.
unfold generate_image. apply retry_returns_at_once; [exact Hmax |].
unfold generate_image_wrapped, bind, effect, call. rewrite Hgen.
unfold first_candidate_parts. rewrite Hcand. unfold ret.
rewrite (save_first_image_skips _ _ _ Hskip). simpl.
rewrite Hp, Himg. unfold bind, call, effect, ret. now rewrite Hwrite.
Qed.

(** X9.  When the answer to [generate_variation] has no candidate at all,
    [response.candidates[0]] raises [IndexError]; that is no rate-limit
    signal, so it leaves the wrapper at once: one request, no retry, and
    no [sys.exit] as for an answer without image part. *)
Theorem generate_variation_without_candidates
  cl reference_path prompt aspect_ratio output_path w w1 w2 reference r :
  1 <= MAX_RETRIES ->
  read_bytes reference_path
    (print (GeneratingVariation (path_name output_path)
              (path_name reference_path) (first80 prompt)) w) =
    (w1, inr reference) ->
  generate_content cl IMAGE_MODEL
    [FromBytes reference "image/png"; Text prompt] aspect_ratio w1 =
    (w2, inr r) ->
  candidates r = [] ->
  generate_variation MAX_RETRIES cl reference_path prompt aspect_ratio
    output_path w = (w2, Raise index_error).
Proof.
intros Hmax Hread Hgen Hcand.
unfold generate_variation.
apply retry_raises_at_once; [exact Hmax | | reflexivity].
unfold generate_variation_wrapped, bind, effect, call.
rewrite Hread, Hgen. unfold first_candidate_parts. now rewrite Hcand.
Qed.

(** X10.  Of a terminal operation [generate_video] saves the bytes of the
    first generated video whenever it has any, also when a storage
    reference comes with them; bytes given as text are base64-decoded
    first. *)
Theorem extract_video_prefers_bytes
  op result gv others payload reference decoded output_path w w1 :
  op_response op = Some result ->
  generated_videos result = gv :: others ->
  gv_video gv = Video (Some payload) reference ->
  (exists c rest, payload = RawBytes (c :: rest) /\ decoded = c :: rest) \/
  (exists c rest, payload = Base64Text (String c rest) /\
                  b64decode (String c rest) = inr decoded) ->
  write_bytes output_path decoded w = (w1, inr tt) ->
  extract_video op output_path w =
    (print (Saved output_path (List.length decoded)) w1, Ret (Some output_path)).
Proof.
intros Hr Hg Hv Hpayload Hwrite. unfold extract_video.
rewrite Hr, Hg, Hv.
destruct Hpayload as [[c [rest [-> ->]]] | [c [rest [-> Hd]]]]; simpl;
  unfold bind, call, effect, ret; simpl.
- now rewrite Hwrite.
- now rewrite Hd, Hwrite.
Qed.

(** X11.  How [generate_video] composes: when the two frames load and the
    request is accepted, the polling loop runs until the first refetched
    handle that is done, and what is extracted from that handle is what
    [generate_video] returns, in the world the extraction left. *)
Theorem generate_video_returns_extraction
  fuel cl first_frame last_frame prompt aspect_ratio duration output_path
  w w1 w2 w3 w4 w5 first_image last_image op k op' v :
  1 <= MAX_RETRIES ->
  image_from_file first_frame
    (print (GeneratingVideo (path_name output_path) (path_name first_frame)
              (path_name last_frame) duration (first80 prompt)) w) =
    (w1, inr first_image) ->
  image_from_file last_frame w1 = (w2, inr last_image) ->
  generate_videos cl
    (VideosRequest VIDEO_MODEL prompt first_image aspect_ratio duration
       false "720p" last_image) w2 = (w3, inr op) ->
  refetched k cl 0 op w3 = Some (w4, op') ->
  (forall j w'' op'', (j < k)%nat ->
      refetched j cl 0 op w3 = Some (w'', op'') -> done op'' = false) ->
  done op' = true ->
  (k <= fuel)%nat ->
  extract_video op' output_path w4 = (w5, Ret v) ->
  generate_video MAX_RETRIES fuel cl first_frame last_frame prompt
    aspect_ratio duration output_path w = (w5, Ret v).
Proof.
intros Hmax H1 H2 Hsub Hk Hbefore Hdone Hfuel Hext.
unfold generate_video. apply retry_returns_at_once; [exact Hmax |].
unfold generate_video_wrapped.
unfold bind at 1. unfold effect at 1.
unfold bind at 1. unfold call at 1. rewrite H1.
unfold bind at 1. unfold call at 1. rewrite H2.
unfold bind at 1. unfold call at 1. rewrite Hsub.
unfold bind at 1.
rewrite (poll_loop_returns_first_done cl k fuel 0 op w3 w4 op' Hk Hbefore
           Hdone Hfuel).
exact Hext.
Qed.
(** X29.  When the first candidate of the answer to [generate_variation]
    has no part with inline image data, the function prints the error and
    ends the process with status 1 after that one request: [SystemExit] is
    not caught by the wrapper, so nothing is retried and nothing is
    written. *)
Theorem generate_variation_without_image_part
  cl reference_path prompt aspect_ratio output_path w w1 w2 reference r
  parts others :
  1 <= MAX_RETRIES ->
  read_bytes reference_path
    (print (GeneratingVariation (path_name output_path)
              (path_name reference_path) (first80 prompt)) w) =
    (w1, inr reference) ->
  generate_content cl IMAGE_MODEL
    [FromBytes reference "image/png"; Text prompt] aspect_ratio w1 =
    (w2, inr r) ->
  candidates r = parts :: others ->
  forallb (fun p => negb (is_image_part p)) parts = true ->
  generate_variation MAX_RETRIES cl reference_path prompt aspect_ratio
    output_path w = (print ErrorNoImageInResponse w2, SysExit 1).
Proof.
intros Hmax Hread Hgen Hcand Hparts.
unfold generate_variation.
apply (retry_system_exit _ MAX_RETRIES w _ 1 Hmax).
unfold generate_variation_wrapped, bind, effect, call.
rewrite Hread, Hgen. unfold first_candidate_parts. rewrite Hcand.
unfold ret. rewrite <- (app_nil_r parts).
now rewrite (save_first_image_skips _ _ _ Hparts).
Qed.
End ImageFacts.

Section ClipFacts.
Context {W : Type} {RT : Runtime W} {SV : Services W}.
Variable MAX_RETRIES : Z.

(** Names the world and the value of the first computation of a run. *)
Ltac split_bind H w' v Hrun :=
  match type of H with
  | context [bind ?m _ ?w] =>
      unfold bind at 1 in H;
      destruct (m w) as [w' [v | ? | ? | ]] eqn:Hrun;
      simpl in H; try discriminate H
  end.

(** X12.  Whenever [create_clip] returns, the three stages have returned
    one after the other, each starting in the world the one before left:
    the start frame from [start_prompt], the end frame from the start
    frame's file and the consistency prompt, the video from both files.
    The dictionary returned names the three files in the directory
    [Path(output_dir) / clip_id] as [pathlib] joins them (an [output_dir]
    written [out/] gives [out/t1/start.png], an absolute [clip_id] replaces
    [output_dir]), the video always included. *)
Theorem create_clip_stages_in_order fuel config w result :
  snd (create_clip MAX_RETRIES fuel config w) = Ret result ->
  let clip_dir := clip_dir_of config in
  let aspect_ratio := get_default (cfg_aspect_ratio config) "9:16" in
  let start_path := path_join clip_dir "start.png" in
  let end_path := path_join clip_dir "end.png" in
  let video_path := path_join clip_dir "clip.mp4" in
  result = ClipResult (cfg_clip_id config) start_path end_path
             (Some video_path) /\
  exists image_client video_client w1 w2 w3 w4 p1 p2 v,
    generate_image MAX_RETRIES image_client (cfg_start_prompt config)
      aspect_ratio start_path (print StepStartFrame w1) = (w2, Ret p1) /\
    generate_variation MAX_RETRIES image_client start_path
      (consistency_prompt (cfg_end_prompt config)) aspect_ratio end_path
      (print StepEndFrame w2) = (w3, Ret p2) /\
    generate_video MAX_RETRIES fuel video_client start_path end_path
      (cfg_transition_prompt config) aspect_ratio
      (get_default (cfg_duration config) 4) video_path
      (print StepTransitionVideo w3) = (w4, Ret v) /\
    fst (create_clip MAX_RETRIES fuel config w) =
      print (ClipComplete (cfg_clip_id config)) w4.
Proof.
intros H. cbn zeta. unfold clip_dir_of.
destruct (create_clip MAX_RETRIES fuel config w) as [w_end o] eqn:Hrun.
simpl in H. subst o. unfold create_clip in Hrun.
split_bind Hrun wa u Ha.
unfold bind at 1 in Hrun. unfold effect at 1 in Hrun.
split_bind Hrun wb image_client Hb.
split_bind Hrun wc video_client Hc.
unfold bind at 1 in Hrun. unfold effect at 1 in Hrun.
split_bind Hrun w2 p1 H1.
unfold bind at 1 in Hrun. unfold effect at 1 in Hrun.
split_bind Hrun w3 p2 H2.
unfold bind at 1 in Hrun. unfold effect at 1 in Hrun.
split_bind Hrun w4 v H3.
unfold bind, effect, ret in Hrun. simpl in Hrun.
injection Hrun as <- <-.
split; [reflexivity |].
exists image_client, video_client, wc, w2, w3, w4, p1, p2, v.
repeat split; assumption.
Qed.

(** X13.  With [VERTEX_AI_PROJECT_ID] or
    [VERTEX_AI_SERVICE_ACCOUNT_JSON] unset or empty, [create_clip] prints
    the error and exits with status 1 before any credentials are read or
    any request is sent; the clip directory has been made by then. *)
Theorem create_clip_without_environment fuel config w w1 :
  mkdir_parents (clip_dir_of config) w = (w1, inr tt) ->
  let w2 := print (CreatingClip (cfg_clip_id config)
                     (get_default (cfg_aspect_ratio config) "9:16")
                     (get_default (cfg_duration config) 4)
                     (clip_dir_of config)) w1 in
  falsy (environ_get "VERTEX_AI_PROJECT_ID" w2)
  || falsy (environ_get "VERTEX_AI_SERVICE_ACCOUNT_JSON" w2) = true ->
  create_clip MAX_RETRIES fuel config w =
    (print ErrorMissingEnvironment w2, SysExit 1).
Proof.
intros Hmk w2 Henv. unfold create_clip. fold (clip_dir_of config).
unfold bind at 1. unfold call at 1. rewrite Hmk.
unfold bind at 1. unfold effect at 1. fold w2.
unfold bind at 1. unfold setup_image_client at 1. rewrite Henv.
reflexivity.
Qed.

(** X14.  With [MAX_RETRIES <= 0] the pipeline cannot generate anything:
    once the directory is made and the two clients are set up, the
    start-frame stage raises the [TypeError] of the empty retry loop and
    no request is sent. *)
Theorem create_clip_with_nonpositive_cap
  fuel config w w1 w3 w4 image_client video_client :
  MAX_RETRIES <= 0 ->
  mkdir_parents (clip_dir_of config) w = (w1, inr tt) ->
  setup_image_client
    (print (CreatingClip (cfg_clip_id config)
              (get_default (cfg_aspect_ratio config) "9:16")
              (get_default (cfg_duration config) 4)
              (clip_dir_of config)) w1) = (w3, Ret image_client) ->
  setup_video_client w3 = (w4, Ret video_client) ->
  create_clip MAX_RETRIES fuel config w =
    (print (MaxRetriesExceeded MAX_RETRIES None) (print StepStartFrame w4),
     Raise raise_None_error).
Proof.
intros Hmax Hmk Hic Hvc. unfold create_clip. fold (clip_dir_of config).
unfold bind at 1. unfold call at 1. rewrite Hmk.
unfold bind at 1. unfold effect at 1.
unfold bind at 1. rewrite Hic.
unfold bind at 1. rewrite Hvc.
unfold bind at 1. unfold effect at 1.
unfold bind at 1. unfold generate_image at 1.
now rewrite retry_without_attempts.
Qed.
End ClipFacts.

Section MainFacts.
Context {W : Type} {RT : Runtime W} {SV : Services W} {MS : MainServices W}.

(** X15.  A [config] without one of the four required keys: [create_clip]
    raises the [KeyError] of the first key missing, in the order
    [clip_id], [start_prompt], [end_prompt], [transition_prompt], before
    it makes a directory or touches the world in any way.  The three other
    keys may be missing. *)
Theorem create_clip_missing_key MAX_RETRIES fuel config w key :
  (d_clip_id config = None /\ key = "clip_id") \/
  (d_clip_id config <> None /\ d_start_prompt config = None /\
   key = "start_prompt") \/
  (d_clip_id config <> None /\ d_start_prompt config <> None /\
   d_end_prompt config = None /\ key = "end_prompt") \/
  (d_clip_id config <> None /\ d_start_prompt config <> None /\
   d_end_prompt config <> None /\ d_transition_prompt config = None /\
   key = "transition_prompt") ->
  create_clip_from_dict MAX_RETRIES fuel config w =
    (w, Raise (key_error key)).
Proof.
unfold create_clip_from_dict.
intros [[H1 ->] | [[H1 [H2 ->]] | [[H1 [H2 [H3 ->]]] | [H1 [H2 [H3 [H4 ->]]]]]]];
  destruct (d_clip_id config); try congruence;
  destruct (d_start_prompt config); try congruence;
  destruct (d_end_prompt config); try congruence;
  destruct (d_transition_prompt config); try congruence; reflexivity.
Qed.

(** X16.  Without a configuration file, [main] runs the pipeline only when
    [--clip-id], [--start], [--end] and [--transition] are all given and
    not empty; otherwise it prints the help and the example and exits with
    status 1, and nothing else happens. *)
Theorem main_usage_exit fuel args w :
  falsy (a_config args) = true ->
  falsy (a_clip_id args) || falsy (a_start_prompt args)
  || falsy (a_end_prompt args) || falsy (a_transition_prompt args) = true ->
  main fuel args w =
    (print_main ExampleConfig (print_main Help w), SysExit 1).
Proof.
intros Hc Hmissing. unfold main. rewrite Hc. cbn [negb].
destruct (falsy (a_clip_id args)), (falsy (a_start_prompt args)),
  (falsy (a_end_prompt args)), (falsy (a_transition_prompt args));
  try discriminate Hmissing; reflexivity.
Qed.

(** X17.  With a configuration file, the file decides everything but the
    retry cap: the clip given by [--clip-id], [--start], [--end],
    [--transition] and the values of [--aspect], [--duration] and
    [--output-dir] have no effect on what [main] does. *)
Theorem main_file_overrides_flags fuel args args' w :
  falsy (a_config args) = false ->
  a_config args' = a_config args ->
  a_max_retries args' = a_max_retries args ->
  main fuel args' w = main fuel args w.
Proof.
intros Hc Hsame Hmax. unfold main. rewrite Hsame, Hmax, Hc. reflexivity.
Qed.
End MainFacts.

Import ClipStub ClipStubMain.

Lemma generate_variation_without_image_part_witness :
  @generate_variation world stub_runtime (stub_services no_image)
    MAX_RETRIES_default stub_client "output/t1/start.png" "A phone" "9:16"
    "output/t1/end.png" ClipStub.start =
    (ClipStub.World
       [Printed (GeneratingVariation "end.png" "start.png" "A phone");
        Printed ErrorNoImageInResponse] 1 0 0,
     SysExit 1).
Proof.
apply (@generate_variation_without_image_part world stub_runtime
         (stub_services no_image) MAX_RETRIES_default stub_client
         "output/t1/start.png" "A phone" "9:16" "output/t1/end.png"
         ClipStub.start
         (ClipStub.World
            [Printed (GeneratingVariation "end.png" "start.png" "A phone")]
            0 0 0)
         (ClipStub.World
            [Printed (GeneratingVariation "end.png" "start.png" "A phone")]
            1 0 0)
         [] text_only_response [Part None] []).
- unfold MAX_RETRIES_default. lia.
- reflexivity.
- reflexivity.
- reflexivity.
- reflexivity.
Defined.

Lemma generate_image_saves_first_image_part_witness :
  @generate_image world stub_runtime (stub_services images_after_text)
    MAX_RETRIES_default stub_client "A desk" "9:16" "output/t1/start.png"
    ClipStub.start =
    (ClipStub.World
       [Printed (GeneratingImage "start.png" "A desk");
        Printed (Saved "output/t1/start.png" 3)] 1 0 0,
     Ret "output/t1/start.png").
Proof.
apply (@generate_image_saves_first_image_part world stub_runtime
         (stub_services images_after_text) MAX_RETRIES_default stub_client
         "A desk" "9:16" "output/t1/start.png" ClipStub.start
         (ClipStub.World [Printed (GeneratingImage "start.png" "A desk")]
            1 0 0)
         (ClipStub.World [Printed (GeneratingImage "start.png" "A desk")]
            1 0 0)
         text_then_images
         [Part None; Part (Some (Blob "text/plain" [Byte.x41]))]
         (Part (Some (Blob "image/png" [Byte.x01; Byte.x02; Byte.x03])))
         [Part (Some (Blob "image/jpeg" [Byte.x04]))] []
         (Blob "image/png" [Byte.x01; Byte.x02; Byte.x03])).
- unfold MAX_RETRIES_default. lia.
- reflexivity.
- reflexivity.
- reflexivity.
- reflexivity.
- reflexivity.
- reflexivity.
Defined.

Lemma generate_variation_without_candidates_witness :
  @generate_variation world stub_runtime (stub_services no_candidates)
    MAX_RETRIES_default stub_client "output/t1/start.png" "A phone" "9:16"
    "output/t1/end.png" ClipStub.start =
    (ClipStub.World
       [Printed (GeneratingVariation "end.png" "start.png" "A phone")] 1 0 0,
     Raise index_error).
Proof.
apply (@generate_variation_without_candidates world stub_runtime
         (stub_services no_candidates) MAX_RETRIES_default stub_client
         "output/t1/start.png" "A phone" "9:16" "output/t1/end.png"
         ClipStub.start
         (ClipStub.World
            [Printed (GeneratingVariation "end.png" "start.png" "A phone")]
            0 0 0)
         (ClipStub.World
            [Printed (GeneratingVariation "end.png" "start.png" "A phone")]
            1 0 0)
         [] (Response [])).
- unfold MAX_RETRIES_default. lia.
- reflexivity.
- reflexivity.
- reflexivity.
Defined.

Lemma extract_video_prefers_bytes_witness :
  @extract_video world stub_runtime (stub_services inline_video)
    bytes_and_reference "output/t1/clip.mp4" ClipStub.start =
    (ClipStub.World [Printed (Saved "output/t1/clip.mp4" 2)] 0 0 0,
     Ret (Some "output/t1/clip.mp4")).
Proof.
apply (@extract_video_prefers_bytes world stub_runtime
         (stub_services inline_video) bytes_and_reference
         (VideosResponse
            [GeneratedVideo
               (Video (Some (RawBytes [Byte.x00; Byte.x01]))
                  (Some "gs://bucket/clip.mp4"))])
         (GeneratedVideo
            (Video (Some (RawBytes [Byte.x00; Byte.x01]))
               (Some "gs://bucket/clip.mp4")))
         [] (RawBytes [Byte.x00; Byte.x01]) (Some "gs://bucket/clip.mp4")
         [Byte.x00; Byte.x01] "output/t1/clip.mp4" ClipStub.start
         ClipStub.start).
- reflexivity.
- reflexivity.
- reflexivity.
- left. exists Byte.x00, [Byte.x01]. split; reflexivity.
- reflexivity.
Defined.

Lemma generate_video_returns_extraction_witness :
  @generate_video world stub_runtime (stub_services (done_after 2))
    MAX_RETRIES_default 5 stub_client "output/t1/start.png"
    "output/t1/end.png" "reach" "9:16" 4 "output/t1/clip.mp4"
    ClipStub.start =
    (ClipStub.World
       [Printed (GeneratingVideo "clip.mp4" "start.png" "end.png" 4 "reach");
        Printed (Waiting 1); Slept 15; Printed (Waiting 2); Slept 15;
        Printed (Saved "output/t1/clip.mp4" 2)] 0 1 2,
     Ret (Some "output/t1/clip.mp4")).
Proof.
apply (@generate_video_returns_extraction world stub_runtime
         (stub_services (done_after 2)) MAX_RETRIES_default 5 stub_client
         "output/t1/start.png" "output/t1/end.png" "reach" "9:16" 4
         "output/t1/clip.mp4" ClipStub.start
         (ClipStub.World
            [Printed (GeneratingVideo "clip.mp4" "start.png" "end.png" 4
                        "reach")] 0 0 0)
         (ClipStub.World
            [Printed (GeneratingVideo "clip.mp4" "start.png" "end.png" 4
                        "reach")] 0 0 0)
         (ClipStub.World
            [Printed (GeneratingVideo "clip.mp4" "start.png" "end.png" 4
                        "reach")] 0 1 0)
         (ClipStub.World
            [Printed (GeneratingVideo "clip.mp4" "start.png" "end.png" 4
                        "reach");
             Printed (Waiting 1); Slept 15; Printed (Waiting 2); Slept 15]
            0 1 2)
         (ClipStub.World
            [Printed (GeneratingVideo "clip.mp4" "start.png" "end.png" 4
                        "reach");
             Printed (Waiting 1); Slept 15; Printed (Waiting 2); Slept 15;
             Printed (Saved "output/t1/clip.mp4" 2)] 0 1 2)
         (Image [] "image/png") (Image [] "image/png") pending_operation
         2%nat inline_operation (Some "output/t1/clip.mp4")).
- unfold MAX_RETRIES_default. lia.
- reflexivity.
- reflexivity.
- reflexivity.
- reflexivity.
- intros j w'' op'' Hj Hr.
  destruct j as [| [| j]]; [| | lia]; simpl in Hr; injection Hr as <- <-;
    reflexivity.
- reflexivity.
- lia.
- reflexivity.
Defined.

Lemma create_clip_stages_in_order_witness :
  let MAX := MAX_RETRIES_default in
  ClipResult "t1" "output/t1/start.png" "output/t1/end.png"
    (Some "output/t1/clip.mp4") =
  ClipResult (cfg_clip_id t1) (path_join (clip_dir_of t1) "start.png")
    (path_join (clip_dir_of t1) "end.png")
    (Some (path_join (clip_dir_of t1) "clip.mp4")) /\
  exists image_client video_client w1 w2 w3 w4 p1 p2 v,
    @generate_image world stub_runtime (stub_services reference_only) MAX
      image_client (cfg_start_prompt t1)
      (get_default (cfg_aspect_ratio t1) "9:16")
      (path_join (clip_dir_of t1) "start.png")
      (print StepStartFrame w1) = (w2, Ret p1) /\
    @generate_variation world stub_runtime (stub_services reference_only)
      MAX image_client (path_join (clip_dir_of t1) "start.png")
      (consistency_prompt (cfg_end_prompt t1))
      (get_default (cfg_aspect_ratio t1) "9:16")
      (path_join (clip_dir_of t1) "end.png")
      (print StepEndFrame w2) = (w3, Ret p2) /\
    @generate_video world stub_runtime (stub_services reference_only) MAX 0
      video_client (path_join (clip_dir_of t1) "start.png")
      (path_join (clip_dir_of t1) "end.png") (cfg_transition_prompt t1)
      (get_default (cfg_aspect_ratio t1) "9:16")
      (get_default (cfg_duration t1) 4)
      (path_join (clip_dir_of t1) "clip.mp4")
      (print StepTransitionVideo w3) = (w4, Ret v) /\
    fst (@create_clip world stub_runtime (stub_services reference_only) MAX
           0 t1 ClipStub.start) =
      print (ClipComplete (cfg_clip_id t1)) w4.
Proof.
apply (@create_clip_stages_in_order world stub_runtime
         (stub_services reference_only) MAX_RETRIES_default 0 t1
         ClipStub.start
         (ClipResult "t1" "output/t1/start.png" "output/t1/end.png"
            (Some "output/t1/clip.mp4"))).
reflexivity.
Defined.

(** The joins of [create_clip] at an [output_dir] with a trailing slash, at
    the current directory and at an absolute [clip_id]. *)
Lemma clip_dir_follows_pathlib :
  clip_dir_of (ClipConfig "t1" "" "" "" None None (Some "out/")) = "out/t1" /\
  clip_dir_of (ClipConfig "t1" "" "" "" None None (Some ".")) = "t1" /\
  clip_dir_of (ClipConfig "/abs/t1" "" "" "" None None None) = "/abs/t1" /\
  path_join "out/t1" "start.png" = "out/t1/start.png" /\
  path_join "/abs/t1" "clip.mp4" = "/abs/t1/clip.mp4".
Proof. repeat split. Qed.

Lemma create_clip_without_environment_witness :
  @create_clip world stub_runtime
    (stub_services_with_environment project_only inline_video)
    MAX_RETRIES_default 0 t1 ClipStub.start =
    (ClipStub.World
       [Printed (CreatingClip "t1" "9:16" 4 "output/t1");
        Printed ErrorMissingEnvironment] 0 0 0,
     SysExit 1).
Proof.
apply (@create_clip_without_environment world stub_runtime
         (stub_services_with_environment project_only inline_video)
         MAX_RETRIES_default 0 t1 ClipStub.start ClipStub.start).
- reflexivity.
- reflexivity.
Defined.

Lemma create_clip_with_nonpositive_cap_witness :
  @create_clip world stub_runtime (stub_services inline_video) 0 0 t1
    ClipStub.start =
    (ClipStub.World
       [Printed (CreatingClip "t1" "9:16" 4 "output/t1");
        Printed StepStartFrame;
        Printed (MaxRetriesExceeded 0 None)] 0 0 0,
     Raise raise_None_error).
Proof.
apply (@create_clip_with_nonpositive_cap world stub_runtime
         (stub_services inline_video) 0 0 t1 ClipStub.start ClipStub.start
         (ClipStub.World [Printed (CreatingClip "t1" "9:16" 4 "output/t1")]
            0 0 0)
         (ClipStub.World [Printed (CreatingClip "t1" "9:16" 4 "output/t1")]
            0 0 0)
         (Client (Some "value-of-VERTEX_AI_PROJECT_ID") "global"
            (ServiceAccount "value-of-VERTEX_AI_SERVICE_ACCOUNT_JSON" scopes))
         (Client (Some "value-of-VERTEX_AI_PROJECT_ID") "us-central1"
            (ServiceAccount "value-of-VERTEX_AI_SERVICE_ACCOUNT_JSON" scopes))).
- lia.
- reflexivity.
- reflexivity.
- reflexivity.
Defined.

Lemma create_clip_missing_key_witness :
  @create_clip_from_dict world stub_runtime (stub_services inline_video)
    MAX_RETRIES_default 0 no_end_prompt ClipStub.start =
    (ClipStub.start, Raise (key_error "end_prompt")).
Proof.
apply (@create_clip_missing_key world stub_runtime
         (stub_services inline_video) MAX_RETRIES_default 0 no_end_prompt
         ClipStub.start "end_prompt").
right. right. left. repeat split; discriminate.
Defined.

Lemma main_usage_exit_witness :
  @main world stub_runtime (stub_services inline_video)
    (stub_main (inr t1_dict)) 0 incomplete_arguments ClipStub.start =
    (ClipStub.start, SysExit 1).
Proof.
apply (@main_usage_exit world stub_runtime (stub_services inline_video)
         (stub_main (inr t1_dict)) 0 incomplete_arguments ClipStub.start).
- reflexivity.
- reflexivity.
Defined.

Lemma main_file_overrides_flags_witness :
  @main world stub_runtime (stub_services inline_video)
    (stub_main (inr t1_dict)) 0 file_and_flags ClipStub.start =
  @main world stub_runtime (stub_services inline_video)
    (stub_main (inr t1_dict)) 0 file_only ClipStub.start.
Proof.
apply (@main_file_overrides_flags world stub_runtime
         (stub_services inline_video) (stub_main (inr t1_dict)) 0 file_only
         file_and_flags ClipStub.start).
- reflexivity.
- reflexivity.
- reflexivity.
Defined.

End CreateClipExtra.

(** * Further properties of chain_clips.py *)

Module ChainClipsExtra.
Import ChainClips ChainClipsMain ChainClipsSpec.

Section ChainEdges.
Context {W : Type} {SV : Services W}.

(** X18.  Which file [find_clip_video] picks in a directory: [clip.mp4]
    when it exists, whatever else is there; else [video.mp4]; else the
    first file that [glob("*.mp4")] lists; with none of these it prints the
    error and exits with status 1. *)
Theorem find_clip_video_precedence (clip_dir : string) (w : W) :
  (path_exists (path_join clip_dir "clip.mp4") w = true ->
   find_clip_video clip_dir w = (w, Ret (path_join clip_dir "clip.mp4"))) /\
  (path_exists (path_join clip_dir "clip.mp4") w = false ->
   path_exists (path_join clip_dir "video.mp4") w = true ->
   find_clip_video clip_dir w = (w, Ret (path_join clip_dir "video.mp4"))) /\
  (path_exists (path_join clip_dir "clip.mp4") w = false ->
   path_exists (path_join clip_dir "video.mp4") w = false ->
   forall first others,
     glob_mp4 clip_dir w = first :: others ->
     find_clip_video clip_dir w = (w, Ret first)) /\
  (path_exists (path_join clip_dir "clip.mp4") w = false ->
   path_exists (path_join clip_dir "video.mp4") w = false ->
   glob_mp4 clip_dir w = [] ->
   find_clip_video clip_dir w =
     (print (ErrorNoVideoFile clip_dir) w, SysExit 1)).
Proof.
unfold find_clip_video. cbn [first_existing]. repeat split.
- intros H. now rewrite H.
- intros H1 H2. now rewrite H1, H2.
- intros H1 H2 first others Hg. now rewrite H1, H2, Hg.
- intros H1 H2 Hg. now rewrite H1, H2, Hg.
Qed.

Lemma find_clip_video_keeps_world clip_dir w w1 p :
  find_clip_video clip_dir w = (w1, Ret p) -> w1 = w.
Proof.
unfold find_clip_video.
destruct (first_existing clip_dir _ w); [now intros [= <- _] |].
destruct (glob_mp4 clip_dir w); [discriminate | now intros [= <- _]].
Qed.

Lemma discover_appends :
  forall clip_dirs clip_paths total w w' clip_paths' total',
    discover clip_dirs clip_paths total w = (w', Ret (clip_paths', total')) ->
    exists found,
      clip_paths' = (clip_paths ++ found)%list /\
      Forall2 (fun clip_dir video_path =>
                 exists w0, path_exists clip_dir w0 = true /\
                            find_clip_video clip_dir w0 = (w0, Ret video_path))
              clip_dirs found.
Proof.
induction clip_dirs as [| clip_dir rest IH];
  intros clip_paths total w w' clip_paths' total' H.
- injection H as _ <- _. exists []. split; [now rewrite app_nil_r | constructor].
- cbn [discover] in H.
  destruct (path_exists clip_dir w) eqn:Hex; cbn [negb] in H;
    [| discriminate].
  unfold bind at 1 in H.
  destruct (find_clip_video clip_dir w) as [w1 [video_path | | | ]] eqn:Hf;
    try discriminate.
  pose proof (find_clip_video_keeps_world _ _ _ _ Hf) as ->.
  unfold bind at 1 in H.
  destruct (get_video_duration video_path w) as [w2 [duration | | | ]];
    try discriminate.
  unfold bind at 1 in H. unfold effect at 1 in H.
  apply IH in H as [found [-> Hall]].
  exists (video_path :: found)%list. split.
  + now rewrite <- app_assoc.
  + constructor; [| exact Hall]. now exists w.
Qed.

(** X19.  When the loop of [chain_clips] over the directories completes,
    it has added exactly one video per directory, in the order of the
    directories, after the paths it started with; each is the file
    [find_clip_video] picks in its directory, which existed. *)
Theorem discover_one_video_per_directory
  clip_dirs clip_paths total w w' clip_paths' total' :
  discover clip_dirs clip_paths total w = (w', Ret (clip_paths', total')) ->
  exists found,
    clip_paths' = (clip_paths ++ found)%list /\
    List.length found = List.length clip_dirs /\
    Forall2 (fun clip_dir video_path =>
               exists w0, path_exists clip_dir w0 = true /\
                          find_clip_video clip_dir w0 = (w0, Ret video_path))
            clip_dirs found.
Proof.
intros H. apply discover_appends in H as [found [Hp Hall]].
exists found. repeat split; [exact Hp | | exact Hall].
symmetry. exact (Forall2_length Hall).
Qed.


Lemma inputs_of_skip (s : string) (cmd : command) :
  String.eqb s "-i" = false ->
  inputs_of (Arg s :: cmd) = inputs_of cmd.
Proof.
intros Hs. destruct cmd as [| [v | chain | inputs n] rest]; cbn [inputs_of];
  try reflexivity.
now rewrite Hs.
Qed.

Lemma inputs_of_flat_map clip_paths tail :
  inputs_of
    (flat_map (fun clip => [Arg "-i"; Arg clip]) clip_paths ++ tail)%list =
  (clip_paths ++ inputs_of tail)%list.
Proof.
induction clip_paths as [| clip rest IH]; [reflexivity |].
cbn [flat_map app]. cbn [inputs_of]. cbn [String.eqb Ascii.eqb Bool.eqb].
now rewrite IH.
Qed.

(** X20.  The command of the re-encoding strategy, for any number of
    clips: every clip is an input, in order, and nothing else is; the
    concat filter is told the number of clips and reads the video streams
    0 to n-1. *)
Theorem reencode_cmd_inputs (clip_paths : list string) (output_path : string) :
  inputs_of (reencode_cmd clip_paths output_path) = clip_paths /\
  In (ConcatFilter (seq 0 (List.length clip_paths)) (List.length clip_paths))
     (reencode_cmd clip_paths output_path).
Proof.
unfold reencode_cmd. split.
- cbn [app]. rewrite !inputs_of_skip by reflexivity.
  rewrite inputs_of_flat_map. cbn. now rewrite app_nil_r.
- apply in_or_app. right. apply in_or_app. right.
  apply in_or_app. left. right. now left.
Qed.

(** X21.  The crossfade strategy builds a command exactly for 2 or 3
    clips: then the clips are its inputs, in order, and it has one
    transition fewer than clips, each of the fade length asked for.  For
    any other number of clips it prints the error and exits with status 1
    without running anything. *)
Theorem crossfade_cmd_shape
  (clip_paths : list string) (output_path : string) (fade_duration : Q)
  (w : W) :
  (List.length clip_paths = 2%nat \/ List.length clip_paths = 3%nat ->
   exists cmd,
     crossfade_cmd clip_paths output_path fade_duration = Some cmd /\
     inputs_of cmd = clip_paths /\
     xfade_durations cmd =
       repeat fade_duration (List.length clip_paths - 1)) /\
  (List.length clip_paths <> 2%nat -> List.length clip_paths <> 3%nat ->
   concat_with_crossfade clip_paths output_path fade_duration w =
     (print ErrorCrossfadeSupports (print (UsingCrossfade fade_duration) w),
      SysExit 1)).
Proof.
split.
- intros Hlen.
  destruct clip_paths as [| v1 [| v2 [| v3 [| v4 rest]]]];
    simpl in Hlen; try lia; eexists; (split; [reflexivity |]); split;
    reflexivity.
- intros H2 H3. unfold concat_with_crossfade.
  destruct clip_paths as [| v1 [| v2 [| v3 [| v4 rest]]]];
    simpl in H2, H3; try lia; reflexivity.
Qed.

(** X22.  [concat_simple] always removes its list file: however the
    [ffmpeg] step ends (normally, with [sys.exit(1)], with an exception),
    [os.unlink] runs next and the step's outcome is kept; only when
    [os.unlink] itself raises does that exception take its place. *)
Theorem concat_simple_removes_list_file
  clip_paths output_path w w1 w2 w3 list_file ended removal :
  write_list_file
    (map (fun clip => "file '" ++ absolute clip (print UsingSimple w) ++ "'"
                      ++ newline) clip_paths)
    (print UsingSimple w) = (w1, inr list_file) ->
  run_ffmpeg (concat_simple_cmd list_file output_path) output_path w1 =
    (w2, ended) ->
  unlink list_file w2 = (w3, removal) ->
  concat_simple clip_paths output_path w =
    (w3, match removal with
         | inr _ => ended
         | inl e => Raise e
         end).
Proof.
intros Hw Hrun Hun. unfold concat_simple.
unfold bind at 1. unfold effect at 1.
unfold bind at 1. unfold call at 1. rewrite Hw.
unfold finally. rewrite Hrun. unfold call. rewrite Hun.
destruct removal; reflexivity.
Qed.

End ChainEdges.

Section MainFacts.
Context {W : Type} {SV : Services W} {MS : MainServices W}.

(** X24.  [check_ffmpeg] returns exactly when [ffmpeg -version] could be
    run and exited with code 0. *)
Theorem check_ffmpeg_returns (w : W) :
  snd (check_ffmpeg w) = Ret tt <->
  exists w1 result,
    run ffmpeg_version_cmd w = (w1, inr result) /\ returncode result = 0.
Proof.
unfold check_ffmpeg.
destruct (run ffmpeg_version_cmd w) as [w1 [e | result]] eqn:Hrun.
- split.
  + destruct (is_file_not_found e); discriminate.
  + intros [w' [r [Hr _]]]. discriminate.
- destruct (returncode result =? 0) eqn:Hc; simpl.
  + split; [| reflexivity]. intros _. exists w1, result.
    split; [reflexivity | now apply Z.eqb_eq].
  + split; [discriminate |]. intros [w' [r [Hr H0]]].
    injection Hr as _ <-. apply Z.eqb_neq in Hc. contradiction.
Qed.

(** X25.  What [main] hands to [chain_clips]: with fewer than two
    directories it exits with status 1 before anything is run; with more
    than three only the first three are chained, after a warning; with two
    or three all are.  Directories and output are handed over as paths. *)
Theorem main_chains_two_or_three (args : arguments) (w : W) :
  ((List.length (a_clips args) < 2)%nat ->
   main args w = (print_main ErrorNeedTwoClips w, SysExit 1)) /\
  ((2 <= List.length (a_clips args))%nat ->
   let w0 := if (3 <? List.length (a_clips args))%nat
             then print_main WarningFirstThree w else w in
   forall w1,
     check_ffmpeg w0 = (w1, Ret tt) ->
     (2 <= List.length (firstn 3 (a_clips args)) <= 3)%nat /\
     main args w =
       bind (chain_clips (map posix_path (firstn 3 (a_clips args)))
               (posix_path (a_output args))
               (a_crossfade args) (a_reencode args))
            (fun _ => ret tt) w1).
Proof.
split.
- intros Hlen. unfold main. apply Nat.ltb_lt in Hlen. now rewrite Hlen.
- intros Hlen w0 w1 Hcheck. split.
  + rewrite length_firstn. lia.
  + unfold main. cbv zeta.
    replace (List.length (a_clips args) <? 2)%nat with false
      by (symmetry; apply Nat.ltb_ge; lia).
    subst w0. destruct (3 <? List.length (a_clips args))%nat eqn:H3.
    * unfold bind at 1. unfold bind at 1. unfold effect at 1. unfold ret at 1.
      unfold bind at 1. now rewrite Hcheck.
    * unfold bind at 1. unfold ret at 1.
      unfold bind at 1. rewrite Hcheck.
      apply Nat.ltb_ge in H3. now rewrite firstn_all2 by lia.
Qed.

(** X26.  Reached from [main], the crossfade strategy always gets 2 or 3
    clips: whenever the directories handed over are all found, a crossfade
    command is built, so the error for another number of clips cannot
    occur on this path. *)
Theorem crossfade_from_main_has_a_command
  (args : arguments) (w w' : W) clip_paths total :
  (2 <= List.length (a_clips args))%nat ->
  discover (map posix_path (firstn 3 (a_clips args))) [] 0%Q w =
    (w', Ret (clip_paths, total)) ->
  exists cmd,
    crossfade_cmd clip_paths (posix_path (a_output args)) (a_crossfade args) =
      Some cmd.
Proof.
intros Hlen Hd.
apply discover_appends in Hd as [found [Hp Hall]].
apply Forall2_length in Hall. rewrite length_map, length_firstn in Hall.
simpl in Hp. subst clip_paths.
destruct found as [| v1 [| v2 [| v3 [| v4 rest]]]];
  cbn [List.length] in Hall; try lia; eexists; reflexivity.
Qed.
End MainFacts.

Import ChainStub ChainStubMain.

Lemma find_clip_video_precedence_witness :
  @find_clip_video world (stub_services_in (two_dirs ok)) "c1" start =
    (start, Ret "c1/clip.mp4") /\
  @find_clip_video world (stub_services_in (two_dirs ok)) "c2" start =
    (start, Ret "c2/video.mp4") /\
  @find_clip_video world (stub_services_in other_name) "c3" start =
    (start, Ret "c3/take7.mp4") /\
  @find_clip_video world (stub_services_in empty_dir) "c4" start =
    (World [ErrorNoVideoFile "c4"] [], SysExit 1).
Proof.
destruct (@find_clip_video_precedence world (stub_services_in (two_dirs ok))
            "c1" start) as [Hclip _].
destruct (@find_clip_video_precedence world (stub_services_in (two_dirs ok))
            "c2" start) as [_ [Hvideo _]].
destruct (@find_clip_video_precedence world (stub_services_in other_name)
            "c3" start) as [_ [_ [Hglob _]]].
destruct (@find_clip_video_precedence world (stub_services_in empty_dir)
            "c4" start) as [_ [_ [_ Hnone]]].
split; [| split; [| split]].
- apply Hclip. reflexivity.
- apply Hvideo; reflexivity.
- apply (Hglob eq_refl eq_refl "c3/take7.mp4" []). reflexivity.
- apply Hnone; reflexivity.
Defined.

Lemma discover_one_video_per_directory_witness :
  exists found,
    ["c1/clip.mp4"; "c2/video.mp4"] = ([] ++ found)%list /\
    List.length found = List.length ["c1"; "c2"] /\
    Forall2 (fun clip_dir video_path =>
               exists w0,
                 @path_exists world (stub_services_in (two_dirs ok))
                   clip_dir w0 = true /\
                 @find_clip_video world (stub_services_in (two_dirs ok))
                   clip_dir w0 = (w0, Ret video_path))
            ["c1"; "c2"] found.
Proof.
apply (@discover_one_video_per_directory world
         (stub_services_in (two_dirs ok)) ["c1"; "c2"] [] 0%Q start
         (World [Found "c1/clip.mp4" 4; Found "c2/video.mp4" 4]
            [ffprobe_cmd "c1/clip.mp4"; ffprobe_cmd "c2/video.mp4"])
         ["c1/clip.mp4"; "c2/video.mp4"] (0 + 4 + 4)%Q).
reflexivity.
Defined.

Lemma crossfade_cmd_shape_witness :
  (exists cmd,
     crossfade_cmd ["a"; "b"; "c"] "out.mp4" (1 # 2) = Some cmd /\
     inputs_of cmd = ["a"; "b"; "c"] /\
     xfade_durations cmd = [1 # 2; 1 # 2]) /\
  @concat_with_crossfade world (stub_services_in five_dirs)
    ["a"; "b"; "c"; "d"] "out.mp4" (1 # 2) start =
    (World [UsingCrossfade (1 # 2); ErrorCrossfadeSupports] [], SysExit 1).
Proof.
destruct (@crossfade_cmd_shape world (stub_services_in five_dirs)
            ["a"; "b"; "c"] "out.mp4" (1 # 2) start) as [Hcmd _].
destruct (@crossfade_cmd_shape world (stub_services_in five_dirs)
            ["a"; "b"; "c"; "d"] "out.mp4" (1 # 2) start) as [_ Hexit].
split.
- apply Hcmd. right. reflexivity.
- apply Hexit; discriminate.
Defined.

Lemma concat_simple_removes_list_file_witness :
  @concat_simple world (stub_services_in (two_dirs failed))
    ["c1/clip.mp4"; "c2/video.mp4"] "out.mp4" start =
    (World
       [UsingSimple;
        Running (concat_simple_cmd "/tmp/list.txt" "out.mp4");
        ErrorFfmpegFailed "Invalid data found when processing input"]
       [concat_simple_cmd "/tmp/list.txt" "out.mp4";
        [Arg "unlink"; Arg "/tmp/list.txt"]],
     SysExit 1).
Proof.
apply (@concat_simple_removes_list_file world
         (stub_services_in (two_dirs failed))
         ["c1/clip.mp4"; "c2/video.mp4"] "out.mp4" start
         (World [UsingSimple] [])
         (World
            [UsingSimple;
             Running (concat_simple_cmd "/tmp/list.txt" "out.mp4");
             ErrorFfmpegFailed "Invalid data found when processing input"]
            [concat_simple_cmd "/tmp/list.txt" "out.mp4"])
         (World
            [UsingSimple;
             Running (concat_simple_cmd "/tmp/list.txt" "out.mp4");
             ErrorFfmpegFailed "Invalid data found when processing input"]
            [concat_simple_cmd "/tmp/list.txt" "out.mp4";
             [Arg "unlink"; Arg "/tmp/list.txt"]])
         "/tmp/list.txt" (SysExit 1) (inr tt)).
- reflexivity.
- reflexivity.
- reflexivity.
Defined.


Lemma check_ffmpeg_returns_witness :
  snd (@check_ffmpeg world (stub_services_in (two_dirs ok)) silent_main
         start) = Ret tt /\
  snd (@check_ffmpeg world (stub_services_in (two_dirs not_found))
         silent_main start) <> Ret tt.
Proof.
split.
- apply (@check_ffmpeg_returns world (stub_services_in (two_dirs ok))
           silent_main start).
  exists (World [] [ffmpeg_version_cmd]), (CompletedProcess 0 "" "").
  split; reflexivity.
- intros H.
  apply (@check_ffmpeg_returns world (stub_services_in (two_dirs not_found))
           silent_main start) in H.
  destruct H as [w1 [result [Hrun _]]]. discriminate Hrun.
Defined.

Lemma main_chains_two_or_three_witness :
  @main world (stub_services_in five_dirs) silent_main
    (Arguments ["a"] "out.mp4" 0 false) start = (start, SysExit 1) /\
  @main world (stub_services_in five_dirs) silent_main
    (Arguments ["a/"; "./b"; "c"; "d"; "e"] "./out.mp4" 0 false) start =
  bind (@chain_clips world (stub_services_in five_dirs) ["a"; "b"; "c"]
          "out.mp4" 0 false)
       (fun _ => ret tt) (World [] [ffmpeg_version_cmd]).
Proof.
destruct (@main_chains_two_or_three world (stub_services_in five_dirs)
            silent_main (Arguments ["a"] "out.mp4" 0 false) start)
  as [Hfew _].
destruct (@main_chains_two_or_three world (stub_services_in five_dirs)
            silent_main (Arguments ["a/"; "./b"; "c"; "d"; "e"] "./out.mp4" 0
                           false) start) as [_ Hmany].
split.
- apply Hfew. simpl. lia.
- apply (Hmany ltac:(simpl; lia) (World [] [ffmpeg_version_cmd])).
  reflexivity.
Defined.

Lemma crossfade_from_main_has_a_command_witness :
  exists cmd,
    crossfade_cmd ["a/clip.mp4"; "b/clip.mp4"; "c/clip.mp4"] "out.mp4"
      (1 # 2) = Some cmd.
Proof.
apply (@crossfade_from_main_has_a_command world (stub_services_in five_dirs)
         (Arguments ["a/"; "./b"; "c"; "d"; "e"] "./out.mp4" (1 # 2) false)
         start
         (World [Found "a/clip.mp4" 4; Found "b/clip.mp4" 4;
                 Found "c/clip.mp4" 4]
            [ffprobe_cmd "a/clip.mp4"; ffprobe_cmd "b/clip.mp4";
             ffprobe_cmd "c/clip.mp4"])
         ["a/clip.mp4"; "b/clip.mp4"; "c/clip.mp4"] (0 + 4 + 4 + 4)%Q).
- simpl. lia.
- reflexivity.
Defined.


End ChainClipsExtra.

(** * Properties of generate_image.py *)

Module GenerateImageSpec.
Import CreateClip GenerateImage.

Section MainFacts.
Context {W : Type} {SV : Services W}.

(** X27.  [main] checks its configuration in this order: the project, the
    path of the service account, the existence of that file.  The first
    check that fails prints its error and exits with status 1; no
    credentials are read and no request is sent. *)
Theorem main_checks_configuration (argv : list string) (w : W) :
  (falsy (environ_get "VERTEX_AI_PROJECT_ID" w) = true ->
   main argv w = (print ErrorProjectNotSet w, SysExit 1)) /\
  (falsy (environ_get "VERTEX_AI_PROJECT_ID" w) = false ->
   falsy (environ_get "VERTEX_AI_SERVICE_ACCOUNT_JSON" w) = true ->
   main argv w = (print ErrorServiceAccountNotSet w, SysExit 1)) /\
  (falsy (environ_get "VERTEX_AI_PROJECT_ID" w) = false ->
   forall account,
     environ_get "VERTEX_AI_SERVICE_ACCOUNT_JSON" w = Some account ->
     account <> "" ->
     path_exists account w = false ->
     main argv w =
       (print (ErrorServiceAccountFileNotFound account) w, SysExit 1)).
Proof.
unfold main. split; [| split].
- intros H. now rewrite H.
- intros H1 H2. now rewrite H1, H2.
- intros H1 account Ha Hne Hex. rewrite H1, Ha.
  destruct account as [| c account]; [contradiction |].
  cbn [falsy get_default]. now rewrite Hex.
Qed.

(** X28.  With the configuration in place, [main] asks for one image with
    the prompt [argv[1]] (a fixed default without it) and saves the first
    image of the answer to [argv[2]] ([output_image.png] without it); an
    answer without images prints the error and exits with status 1, and
    nothing is saved. *)
Theorem main_saves_first_image
  (argv : list string) (w w1 w2 : W) project account credentials answer :
  environ_get "VERTEX_AI_PROJECT_ID" w = Some project -> project <> "" ->
  environ_get "VERTEX_AI_SERVICE_ACCOUNT_JSON" w = Some account ->
  account <> "" ->
  path_exists account w = true ->
  let prompt := nth 1 argv default_prompt in
  let output_file := nth 2 argv "output_image.png" in
  from_service_account_file account scopes
    (print (Settings project account prompt output_file) w) =
    (w1, inr credentials) ->
  generate_images (Client (Some project) "us-central1" credentials)
    IMAGEN_MODEL prompt 1 "1:1" (print Generating w1) = (w2, inr answer) ->
  (answer = [] ->
   main argv w = (print ErrorNoImagesGenerated w2, SysExit 1)) /\
  (forall first others w3,
     answer = first :: others ->
     save (gi_image first) output_file w2 = (w3, inr tt) ->
     main argv w =
       (print (ImageSaved output_file
                 (List.length (image_bytes (gi_image first)))) w3,
        Ret tt)).
Proof.
intros Hp Hpne Ha Hane Hex prompt output_file Hcred Hgen.
assert (Hrun : main argv w =
          match answer with
          | first :: _ =>
              bind (call (save (gi_image first) output_file))
                (fun _ => effect
                   (print (ImageSaved output_file
                             (List.length (image_bytes (gi_image first))))))
                w2
          | [] => (print ErrorNoImagesGenerated w2, SysExit 1)
          end).
{ unfold main. rewrite Hp, Ha.
  destruct project as [| c project]; [contradiction |].
  destruct account as [| c' account]; [contradiction |].
  cbn [falsy get_default]. rewrite Hex. cbn [negb].
  fold prompt. fold output_file.
  unfold bind at 1. unfold effect at 1.
  unfold bind at 1. unfold call at 1. rewrite Hcred.
  unfold bind at 1. unfold effect at 1.
  unfold bind at 1. unfold call at 1. rewrite Hgen.
  destruct answer; reflexivity. }
split.
- intros ->. exact Hrun.
- intros first others w3 -> Hsave. rewrite Hrun.
  unfold bind, call, effect. now rewrite Hsave.
Qed.
End MainFacts.

Lemma main_checks_configuration_witness :
  @main world (stub_services (fun _ => None) [] (inr [])) [] start =
    (World [ErrorProjectNotSet] [] [], SysExit 1) /\
  @main world (stub_services ClipStubMain.project_only []
                 (inr [])) [] start =
    (World [ErrorServiceAccountNotSet] [] [], SysExit 1) /\
  @main world (stub_services configured [] (inr [])) [] start =
    (World [ErrorServiceAccountFileNotFound "sa.json"] [] [], SysExit 1).
Proof.
destruct (@main_checks_configuration world
            (stub_services (fun _ => None) [] (inr [])) [] start)
  as [Hproject _].
destruct (@main_checks_configuration world
            (stub_services ClipStubMain.project_only []
               (inr [])) [] start) as [_ [Haccount _]].
destruct (@main_checks_configuration world
            (stub_services configured [] (inr [])) [] start)
  as [_ [_ Hfile]].
split; [| split].
- apply Hproject. reflexivity.
- apply Haccount; reflexivity.
- apply (Hfile eq_refl "sa.json"); [reflexivity | discriminate | reflexivity].
Defined.

Lemma main_saves_first_image_witness :
  @main world (stub_services configured ["sa.json"] (inr []))
    ["generate_image.py"; "A cat"] start =
    (World [Settings "project" "sa.json" "A cat" "output_image.png";
            Generating; ErrorNoImagesGenerated] ["A cat"] [],
     SysExit 1) /\
  @main world
    (stub_services configured ["sa.json"]
       (inr [picture Byte.x01; picture Byte.x02]))
    ["generate_image.py"; "A cat"; "cat.png"] start =
    (World [Settings "project" "sa.json" "A cat" "cat.png"; Generating;
            ImageSaved "cat.png" 1] ["A cat"]
       [("cat.png", Image [Byte.x01] "image/png")],
     Ret tt).
Proof.
destruct (@main_saves_first_image world
            (stub_services configured ["sa.json"] (inr []))
            ["generate_image.py"; "A cat"] start
            (World [Settings "project" "sa.json" "A cat" "output_image.png"]
               [] [])
            (World [Settings "project" "sa.json" "A cat" "output_image.png";
                    Generating] ["A cat"] [])
            "project" "sa.json" (ServiceAccount "sa.json" scopes) []
            eq_refl ltac:(discriminate) eq_refl ltac:(discriminate) eq_refl
            eq_refl eq_refl) as [Hnone _].
destruct (@main_saves_first_image world
            (stub_services configured ["sa.json"]
               (inr [picture Byte.x01; picture Byte.x02]))
            ["generate_image.py"; "A cat"; "cat.png"] start
            (World [Settings "project" "sa.json" "A cat" "cat.png"] [] [])
            (World [Settings "project" "sa.json" "A cat" "cat.png";
                    Generating] ["A cat"] [])
            "project" "sa.json" (ServiceAccount "sa.json" scopes)
            [picture Byte.x01; picture Byte.x02]
            eq_refl ltac:(discriminate) eq_refl ltac:(discriminate) eq_refl
            eq_refl eq_refl) as [_ Hsaved].
split.
- apply Hnone. reflexivity.
- apply (Hsaved (picture Byte.x01) [picture Byte.x02]
           (World [Settings "project" "sa.json" "A cat" "cat.png";
                   Generating] ["A cat"]
              [("cat.png", Image [Byte.x01] "image/png")]));
    reflexivity.
Defined.

End GenerateImageSpec.
